(** * A TFTP read client: the request issuer and the receive/acknowledge loop

    Shallow embedding of [tftp_client.py] ([send_rrq], [receive_data], [main])
    and the properties of the transfer engine.

    The Python code talks to three collaborators: the file system
    ([os.path.isfile], [os.access], [open]), a UDP socket ([settimeout],
    [sendto], [recvfrom], [close]) and the console ([print], [logging]).
    They are modelled by a [world] that holds the file system, the socket
    timeout and the trace of every effect in program order.  What the network
    delivers is a script of [arrival]s, one per [recvfrom] call. *)

From Stdlib Require Import ZArith Lia List String Strings.Byte Bool.
From stdpp Require Import gmap strings list pretty.
Import ListNotations.

Local Open Scope Z_scope.

(** ** Bytes and [struct] *)

Definition bytes := list byte.

Definition Z_of_byte (b : byte) : Z := Z.of_N (Byte.to_N b).

Definition byte_of_Z (z : Z) : byte :=
  match Byte.of_N (Z.to_N z) with
  | Some b => b
  | None => x00
  end.

(** [struct.pack("!H", n)]: two bytes, most significant first; [struct.error]
    ([None]) when [n] does not fit 16 bits. *)
Definition struct_pack_H (n : Z) : option bytes :=
  if (0 <=? n) && (n <? 65536)
  then Some [byte_of_Z (n / 256); byte_of_Z (n mod 256)]
  else None.

(** [struct.pack("!HH", a, b)]. *)
Definition struct_pack_HH (a b : Z) : option bytes :=
  match struct_pack_H a, struct_pack_H b with
  | Some x, Some y => Some (x ++ y)
  | _, _ => None
  end.

(** [struct.unpack("!HH", buf)]: [struct.error] ([None]) unless [buf] holds
    exactly four bytes. *)
Definition struct_unpack_HH (buf : bytes) : option (Z * Z) :=
  match buf with
  | [a; b; c; d] =>
      Some (256 * Z_of_byte a + Z_of_byte b, 256 * Z_of_byte c + Z_of_byte d)
  | _ => None
  end.

(** ** The world *)

Definition address : Type := string * Z.

(** A path names a regular file (with its content and the permission bits the
    client looks at) or a directory. Parent directories are not modelled: a
    path that names nothing can be created. *)
Inductive node :=
| File (content : bytes) (readable writable : bool)
| Directory.

Inductive level := DEBUG | INFO | WARNING | ERROR.

(** One constructor per [logging] call of [receive_data], with the values its
    f-string interpolates. *)
Inductive message :=
| MsgUnexpectedOpcode (opcode : Z)
| MsgOutOfOrder (block expected : Z)
| MsgReceivedBlock (block : Z)
| MsgWritten (n : nat)
| MsgFinished
| MsgMaxRetries
| MsgRetrying (retries max_retries : Z).

(** One constructor per [print] call of [send_rrq] and [main]. *)
Inductive printed :=
| PrintDoesNotExist (filename : string)
| PrintCannotBeRead (filename : string)
| PrintStarting (ip : string) (port : Z) (filename : string)
| PrintUnsupportedMode.

Inductive event :=
| EvSettimeout (seconds : Z)
| EvSendto (packet : bytes) (dest : address)
| EvRecv (data : bytes) (src : address)
| EvTimedOut (seconds : Z)
| EvSocketClose
| EvOpenWb (path : string)
| EvWrite (path : string) (data : bytes)
| EvFileClose (path : string)
| EvPrint (p : printed)
| EvLog (lv : level) (msg : message).

Record world := World {
  fs : gmap string node;
  sock_timeout : option Z;
  trace : list event;
}.

(** What one [recvfrom] call meets: a datagram from some endpoint, or nothing
    for as long as the socket is willing to wait. *)
Inductive arrival :=
| Datagram (data : bytes) (src : address)
| Silence.

Inductive exn := SocketTimeout | StructError | PermissionError | IsADirectoryError.

(** A call returns, raises, or is still blocked in [recvfrom]: the socket has
    no timeout and nothing arrives, or the script of arrivals is used up and
    says nothing of what comes next. *)
Inductive result (A : Type) :=
| Ok (a : A)
| Exn (e : exn)
| Blocked.
Arguments Ok {A} a.
Arguments Exn {A} e.
Arguments Blocked {A}.

Definition M (A : Type) : Type := world -> result A * world.

Definition ret {A} (a : A) : M A := fun w => (Ok a, w).

Definition raise {A} (e : exn) : M A := fun w => (Exn e, w).

Definition bind {A B} (c : M A) (k : A -> M B) : M B :=
  fun w =>
    match c w with
    | (Ok a, w') => k a w'
    | (Exn e, w') => (Exn e, w')
    | (Blocked, w') => (Blocked, w')
    end.

(** [try: c  except socket.timeout: h]. *)
Definition try_except_timeout {A} (c : M A) (h : M A) : M A :=
  fun w =>
    match c w with
    | (Exn SocketTimeout, w') => h w'
    | r => r
    end.

Notation "'let*' x ':=' c 'in' k" := (bind c (fun x => k))
  (at level 10, x pattern, c at level 100, k at level 200).

Definition emit (e : event) : M unit :=
  fun w => (Ok tt, World (fs w) (sock_timeout w) (trace w ++ [e])).

Definition lift_struct {A} (o : option A) : M A :=
  match o with
  | Some a => ret a
  | None => raise StructError
  end.

(** *** Console *)

Definition print (p : printed) : M unit := emit (EvPrint p).
Definition logging (lv : level) (msg : message) : M unit := emit (EvLog lv msg).

(** *** File system *)

Definition os_path_isfile (path : string) : M bool :=
  fun w =>
    (Ok match fs w !! path with Some (File _ _ _) => true | _ => false end, w).

(** [os.access(path, os.R_OK)]. *)
Definition os_access_R_OK (path : string) : M bool :=
  fun w =>
    (Ok match fs w !! path with
        | Some (File _ r _) => r
        | Some Directory => true
        | None => false
        end, w).

(** [open(path, 'wb')]: creates the file or truncates it to empty. The
    directory the path lies in is taken to exist and the name to be a proper
    one; the statements below either assume that the open succeeds or speak
    of an open that raised, whatever the exception. *)
Definition open_wb (path : string) : M string :=
  fun w =>
    match fs w !! path with
    | None =>
        (Ok path, World (<[path := File [] true true]> (fs w)) (sock_timeout w)
                        (trace w ++ [EvOpenWb path]))
    | Some (File _ r true) =>
        (Ok path, World (<[path := File [] r true]> (fs w)) (sock_timeout w)
                        (trace w ++ [EvOpenWb path]))
    | Some (File _ _ false) => (Exn PermissionError, w)
    | Some Directory => (Exn IsADirectoryError, w)
    end.

(** [file.write(data)]: appends to the file the handle was opened on. The
    file object buffers, so [fs] here is what the file holds once flushed:
    it is the file on disk from the close on. Of a file still open the
    statements below speak through the bytes handed to [file.write], not
    through [fs]. *)
Definition file_write (handle : string) (data : bytes) : M unit :=
  fun w =>
    (Ok tt,
     World (match fs w !! handle with
            | Some (File c r wr) => <[handle := File (c ++ data) r wr]> (fs w)
            | _ => fs w
            end)
           (sock_timeout w) (trace w ++ [EvWrite handle data])).

Definition file_close (handle : string) : M unit := emit (EvFileClose handle).

(** *** Socket *)

Definition settimeout (seconds : Z) : M unit :=
  fun w => (Ok tt, World (fs w) (Some seconds) (trace w ++ [EvSettimeout seconds])).

(** [sendto(packet, dest)], for a destination the socket can address: a
    port from 1 to 65535. Every source [recvfrom] reports is one; of
    [server_address], built from the unchecked [-p], it is a hypothesis of
    the statements that send to it. *)
Definition sendto (packet : bytes) (dest : address) : M unit :=
  emit (EvSendto packet dest).

(** [recvfrom(bufsize)] when the network offers [a]: at most [bufsize] bytes
    of the datagram are returned; silence raises [socket.timeout] once the
    socket's timeout has elapsed. *)
Definition recvfrom (bufsize : nat) (a : arrival) : M (bytes * address) :=
  fun w =>
    match a with
    | Datagram data src =>
        (Ok (firstn bufsize data, src),
         World (fs w) (sock_timeout w) (trace w ++ [EvRecv (firstn bufsize data) src]))
    | Silence =>
        match sock_timeout w with
        | Some t =>
            (Exn SocketTimeout,
             World (fs w) (sock_timeout w) (trace w ++ [EvTimedOut t]))
        | None => (Blocked, w)
        end
    end.

Definition socket_close : M unit := emit EvSocketClose.

(** ** The client *)

(** [b'\x00octet\x00'] *)
Definition octet_suffix : bytes :=
  [x00] ++ list_byte_of_string "octet" ++ [x00].

(** [send_rrq(client_socket, server_address, filename)] *)
Definition send_rrq (server_address : address) (filename : string) : M unit :=
  let* isfile := os_path_isfile filename in
  if negb isfile then
    print (PrintDoesNotExist filename)
  else
    let* readable := os_access_R_OK filename in
    if negb readable then
      print (PrintCannotBeRead filename)
    else
      let* opcode := lift_struct (struct_pack_H 1) in
      let packet := opcode ++ list_byte_of_string filename ++ octet_suffix in
      let* _ := sendto packet server_address in
      print (PrintStarting (fst server_address) (snd server_address) filename).

(** The variables [receive_data] assigns in its loop. *)
Record locals := Locals {
  block_num : Z;
  retries : Z;
  ack_packet : option bytes;
}.

Definition max_retries : Z := 3.

(** The four [break] statements of the loop, in source order. *)
Inductive exit :=
| UnexpectedOpcode
| OutOfOrderBlock
| Finished
| MaxRetriesExceeded.

Inductive ctl := Continue | Break (x : exit).

(** [if ack_packet:] holds for a non-empty bytes object. *)
Definition truthy (o : option bytes) : option bytes :=
  match o with
  | Some (b :: p) => Some (b :: p)
  | _ => None
  end.

(** One pass through the body of [while True], with [a] what [recvfrom]
    meets. The two calls of the [try] block that raise ([recvfrom],
    [struct.unpack]) come before its first assignment, so the handler and an
    escaping exception see the locals [l] the pass started with. *)
Definition iteration (server_address : address) (file : string)
    (a : arrival) (l : locals) : M (ctl * locals) :=
  try_except_timeout
    (let* (data, addr) := recvfrom 516 a in
     let* (opcode, block) := lift_struct (struct_unpack_HH (firstn 4 data)) in
     if negb (opcode =? 3) then
       let* _ := logging ERROR (MsgUnexpectedOpcode opcode) in
       ret (Break UnexpectedOpcode, l)
     else if negb (block =? block_num l) then
       let* _ := logging ERROR (MsgOutOfOrder block (block_num l)) in
       ret (Break OutOfOrderBlock, l)
     else
       let* _ := logging INFO (MsgReceivedBlock block) in
       let* _ := file_write file (skipn 4 data) in
       let* _ := logging DEBUG (MsgWritten (length (skipn 4 data))) in
       let* ack := lift_struct (struct_pack_HH 4 block) in
       let* _ := sendto ack addr in
       let l' := Locals (block_num l + 1) 0 (Some ack) in
       if (length (skipn 4 data) <? 512)%nat then
         let* _ := logging INFO MsgFinished in
         ret (Break Finished, l')
       else
         ret (Continue, l'))
    (let l' := Locals (block_num l) (retries l + 1) (ack_packet l) in
     if retries l' >? max_retries then
       let* _ := logging ERROR MsgMaxRetries in
       ret (Break MaxRetriesExceeded, l')
     else
       let* _ := logging WARNING (MsgRetrying (retries l') max_retries) in
       let* _ := match truthy (ack_packet l') with
                 | Some ack => sendto ack server_address
                 | None => ret tt
                 end in
       ret (Continue, l')).

(** How the loop stands once the script has been played: it left through a
    [break], an exception escaped it, or it is still waiting in [recvfrom]. *)
Inductive loop_result :=
| Exited (x : exit) (l : locals)
| Raised (e : exn) (l : locals)
| Awaiting (l : locals).

(** [while True: ...], one arrival per pass; returns the arrivals not
    consumed. *)
Fixpoint receive_loop (server_address : address) (file : string)
    (script : list arrival) (l : locals) (w : world)
  : loop_result * list arrival * world :=
  match script with
  | [] => (Awaiting l, [], w)
  | a :: rest =>
      match iteration server_address file a l w with
      | (Ok (Continue, l'), w') => receive_loop server_address file rest l' w'
      | (Ok (Break x, l'), w') => (Exited x l', rest, w')
      | (Exn e, w') => (Raised e l, rest, w')
      | (Blocked, w') => (Awaiting l, a :: rest, w')
      end
  end.

Definition initial_locals : locals := Locals 1 0 None.

(** [receive_data(client_socket, server_address, filename)]: returns [None]
    ([tt]) on every path that returns. *)
Definition receive_data (server_address : address) (filename : string)
    (script : list arrival) (w : world) : result unit * list arrival * world :=
  match open_wb filename w with
  | (Ok file, w1) =>
      match receive_loop server_address file script initial_locals w1 with
      | (Exited _ _, rest, w2) => (Ok tt, rest, snd (file_close file w2))
      | (Raised e _, rest, w2) => (Exn e, rest, snd (file_close file w2))
      | (Awaiting _, rest, w2) => (Blocked, rest, w2)
      end
  | (Exn e, w1) => (Exn e, script, w1)
  | (Blocked, w1) => (Blocked, script, w1)
  end.

(** The namespace [parse_arguments] returns. *)
Record namespace := Namespace {
  file : string;
  m : string;
  p : Z;
}.

(** [socket.socket(AF_INET, SOCK_DGRAM)]: a fresh socket has no timeout. *)
Definition socket_socket : M unit :=
  fun w => (Ok tt, World (fs w) None (trace w)).

(** [main()], on the arguments parsed from the command line. *)
Definition main (args : namespace) (script : list arrival) (w : world)
  : result unit * list arrival * world :=
  let server_address : address := ("127.0.0.1"%string, p args) in
  let w1 := snd (socket_socket w) in
  let w2 := snd (settimeout 2 w1) in
  let '(r, rest, w3) :=
    if String.eqb (m args) "rx" then
      match send_rrq server_address (file args) w2 with
      | (Ok _, w') => receive_data server_address (file args) script w'
      | (Exn e, w') => (Exn e, script, w')
      | (Blocked, w') => (Blocked, script, w')
      end
    else
      match print PrintUnsupportedMode w2 with
      | (r, w') => (r, script, w')
      end in
  match r with
  | Blocked => (Blocked, rest, w3)
  | _ => (r, rest, snd (socket_close w3))
  end.

(** ** Vocabulary of the statements *)

(** The world after more effects have been traced. *)
Definition with_events (w : world) (evs : list event) : world :=
  World (fs w) (sock_timeout w) (trace w ++ evs).

(** The file system after [file.write(payload)] on [file]. *)
Definition written_fs (w : world) (file : string) (payload : bytes) : gmap string node :=
  match fs w !! file with
  | Some (File c r wr) => <[file := File (c ++ payload) r wr]> (fs w)
  | _ => fs w
  end.

(** The datagrams handed to [sendto], oldest first. *)
Fixpoint sent (tr : list event) : list (bytes * address) :=
  match tr with
  | [] => []
  | EvSendto packet dest :: t => (packet, dest) :: sent t
  | _ :: t => sent t
  end.

(** The payloads handed to [file.write], oldest first. *)
Fixpoint written (tr : list event) : list bytes :=
  match tr with
  | [] => []
  | EvWrite _ data :: t => data :: written t
  | _ :: t => written t
  end.

(** The [recvfrom] calls that came back, with a datagram or with a timeout. *)
Fixpoint receives (tr : list event) : list event :=
  match tr with
  | [] => []
  | EvRecv data src :: t => EvRecv data src :: receives t
  | EvTimedOut s :: t => EvTimedOut s :: receives t
  | _ :: t => receives t
  end.

(** A data segment as a server puts it on the wire:
    [[opcode=3][block:u16][payload]]. *)
Definition data_segment (block : Z) (payload : bytes) : bytes :=
  [x00; x03; byte_of_Z (block / 256); byte_of_Z (block mod 256)] ++ payload.

(** The acknowledgment of [block]: [[opcode=4][block:u16]]. *)
Definition ack_of (block : Z) : bytes :=
  [x00; x04; byte_of_Z (block / 256); byte_of_Z (block mod 256)].

(** A server that sends the payloads [segs], each from the endpoint paired
    with it, under consecutive block numbers from [first] on. *)
Fixpoint server_run (first : Z) (segs : list (bytes * address)) : list arrival :=
  match segs with
  | [] => []
  | (payload, src) :: t =>
      Datagram (data_segment first payload) src :: server_run (first + 1) t
  end.

(** What the loop traces for one accepted segment. *)
Definition accept_events (file : string) (block : Z) (d : bytes) (src : address)
  : list event :=
  [EvRecv d src; EvLog INFO (MsgReceivedBlock block);
   EvWrite file (skipn 4 d); EvLog DEBUG (MsgWritten (length (skipn 4 d)));
   EvSendto (ack_of block) src].

(** What the loop traces while it accepts the segments of [server_run]. *)
Fixpoint run_events (file : string) (first : Z) (segs : list (bytes * address))
  : list event :=
  match segs with
  | [] => []
  | (payload, src) :: t =>
      accept_events file first (data_segment first payload) src
        ++ run_events file (first + 1) t
  end.

(** The log record each [break] is preceded by. *)
Definition announces (x : exit) (e : event) : Prop :=
  match x with
  | UnexpectedOpcode => exists opcode, e = EvLog ERROR (MsgUnexpectedOpcode opcode)
  | OutOfOrderBlock => exists block expected, e = EvLog ERROR (MsgOutOfOrder block expected)
  | Finished => e = EvLog INFO MsgFinished
  | MaxRetriesExceeded => e = EvLog ERROR MsgMaxRetries
  end.

(** The read request [send_rrq] builds:
    [[opcode=1][filename bytes][0x00]["octet"][0x00]]. *)
Definition read_request (filename : string) : bytes :=
  [x00; x01] ++ list_byte_of_string filename ++ octet_suffix.

(** *** A small scene for the examples *)

Definition loopback : address := ("127.0.0.1"%string, 6969).

(** The endpoint a server answers from: a port of its own choice. *)
Definition peer : address := ("127.0.0.1"%string, 50123).

(** [data.txt] is there, readable and writable, and holds two bytes. *)
Definition example_world : world :=
  World (<["data.txt"%string := File [x68; x69] true true]> ∅) (Some 2) [].

Definition example_opened : world :=
  snd (open_wb "data.txt" example_world).

Definition full_payload : bytes := repeat x41 512.

(** *** The loop as a transition system *)

(** The paths through one pass of the loop: what [recvfrom] meets, how the
    pass ends and the world it leaves, from the locals [l] and the world
    [w]. *)
Inductive pass (sa : address) (file : string) (l : locals) (w : world)
  : arrival -> result (ctl * locals) -> world -> Prop :=
| pass_short data src :
    struct_unpack_HH (firstn 4 data) = None ->
    pass sa file l w (Datagram data src) (Exn StructError)
      (with_events w [EvRecv (firstn 516 data) src])
| pass_opcode data src opcode block :
    struct_unpack_HH (firstn 4 data) = Some (opcode, block) ->
    opcode <> 3 ->
    pass sa file l w (Datagram data src) (Ok (Break UnexpectedOpcode, l))
      (with_events w [EvRecv (firstn 516 data) src;
                      EvLog ERROR (MsgUnexpectedOpcode opcode)])
| pass_order data src block :
    struct_unpack_HH (firstn 4 data) = Some (3, block) ->
    block <> block_num l ->
    pass sa file l w (Datagram data src) (Ok (Break OutOfOrderBlock, l))
      (with_events w [EvRecv (firstn 516 data) src;
                      EvLog ERROR (MsgOutOfOrder block (block_num l))])
| pass_full data src :
    struct_unpack_HH (firstn 4 data) = Some (3, block_num l) ->
    (512 <= length (skipn 4 (firstn 516 data)))%nat ->
    pass sa file l w (Datagram data src)
      (Ok (Continue, Locals (block_num l + 1) 0 (Some (ack_of (block_num l)))))
      (World (written_fs w file (skipn 4 (firstn 516 data))) (sock_timeout w)
             (trace w ++ accept_events file (block_num l) (firstn 516 data) src))
| pass_last data src :
    struct_unpack_HH (firstn 4 data) = Some (3, block_num l) ->
    (length (skipn 4 (firstn 516 data)) < 512)%nat ->
    pass sa file l w (Datagram data src)
      (Ok (Break Finished, Locals (block_num l + 1) 0 (Some (ack_of (block_num l)))))
      (World (written_fs w file (skipn 4 (firstn 516 data))) (sock_timeout w)
             (trace w ++ accept_events file (block_num l) (firstn 516 data) src
                     ++ [EvLog INFO MsgFinished]))
| pass_retry t :
    sock_timeout w = Some t ->
    retries l + 1 <= max_retries ->
    pass sa file l w Silence
      (Ok (Continue, Locals (block_num l) (retries l + 1) (ack_packet l)))
      (with_events w
         ([EvTimedOut t; EvLog WARNING (MsgRetrying (retries l + 1) max_retries)]
          ++ match truthy (ack_packet l) with
             | Some ack => [EvSendto ack sa]
             | None => []
             end))
| pass_give_up t :
    sock_timeout w = Some t ->
    retries l + 1 > max_retries ->
    pass sa file l w Silence
      (Ok (Break MaxRetriesExceeded,
           Locals (block_num l) (retries l + 1) (ack_packet l)))
      (with_events w [EvTimedOut t; EvLog ERROR MsgMaxRetries])
| pass_blocked :
    sock_timeout w = None ->
    pass sa file l w Silence Blocked w.

(** What holds of the locals whenever the loop, started by [receive_data],
    is about to call [recvfrom]. *)
Definition locals_ok (l : locals) : Prop :=
  1 <= block_num l <= 65536
  /\ 0 <= retries l <= max_retries
  /\ ack_packet l =
       if block_num l =? 1 then None else Some (ack_of (block_num l - 1)).

(** How many more passes the loop can make at most without leaving. *)
Definition passes_left (l : locals) : Z :=
  4 * (65536 - block_num l) + (max_retries - retries l).

(** The regular file at [path], if there is one. *)
Definition file_content (w : world) (path : string) : option bytes :=
  match fs w !! path with
  | Some (File c _ _) => Some c
  | _ => None
  end.

(** ** The sample file of [data_file_gen.py] *)

(** [f"Block {i+1}\n"] *)
Definition block_header (i : Z) : string :=
  ("Block " ++ pretty (i + 1) ++ String (Ascii.ascii_of_nat 10) "")%string.

(** [s * k] on strings: no copy at all when [k] is negative. *)
Definition str_times (s : string) (k : Z) : string :=
  String.concat "" (replicate (Z.to_nat k) s).

(** The string one turn of the loop writes. *)
Definition gen_block (block_size i : Z) : string :=
  (block_header i ++
   str_times "A" (block_size - Z.of_nat (String.length (block_header i))))%string.

(** What the [for i in range(num_blocks)] loop writes in all. *)
Definition gen_content (block_size num_blocks : Z) : string :=
  String.concat "" (map (gen_block block_size) (seqZ 0 num_blocks)).

(** ** Facts about [struct] *)

Lemma Z_of_byte_range (b : byte) : 0 <= Z_of_byte b < 256.
Proof.
  unfold Z_of_byte. pose proof (Byte.to_N_bounded b). lia.
Qed.

Lemma Z_of_byte_of_Z (z : Z) : 0 <= z < 256 -> Z_of_byte (byte_of_Z z) = z.
Proof.
  intros Hz. unfold Z_of_byte, byte_of_Z.
  destruct (Byte.of_N (Z.to_N z)) as [b|] eqn:E.
  - apply Byte.to_of_N in E. rewrite E. lia.
  - apply Byte.of_N_None_iff in E. lia.
Qed.

Lemma byte_of_Z_of_byte (b : byte) : byte_of_Z (Z_of_byte b) = b.
Proof.
  unfold Z_of_byte, byte_of_Z. rewrite N2Z.id, Byte.of_to_N. reflexivity.
Qed.

Lemma struct_pack_H_in_range (n : Z) :
  0 <= n < 65536 ->
  struct_pack_H n = Some [byte_of_Z (n / 256); byte_of_Z (n mod 256)].
Proof.
  intros Hn. unfold struct_pack_H.
  destruct (0 <=? n) eqn:E1; [|lia]. destruct (n <? 65536) eqn:E2; [|lia].
  reflexivity.
Qed.

Lemma struct_unpack_HH_range (buf : bytes) (x y : Z) :
  struct_unpack_HH buf = Some (x, y) -> 0 <= x < 65536 /\ 0 <= y < 65536.
Proof.
  destruct buf as [|a [|b [|c [|d [|e t]]]]]; simpl; try discriminate.
  intros [= <- <-].
  pose proof (Z_of_byte_range a). pose proof (Z_of_byte_range b).
  pose proof (Z_of_byte_range c). pose proof (Z_of_byte_range d). lia.
Qed.

Lemma struct_unpack_pack_HH (a b : Z) :
  0 <= a < 65536 -> 0 <= b < 65536 ->
  exists buf, struct_pack_HH a b = Some buf /\ struct_unpack_HH buf = Some (a, b).
Proof.
  intros Ha Hb. unfold struct_pack_HH.
  rewrite (struct_pack_H_in_range a Ha), (struct_pack_H_in_range b Hb).
  eexists; split; [reflexivity|]. simpl.
  rewrite !Z_of_byte_of_Z
    by (try apply Z.mod_pos_bound; try (split; [apply Z.div_pos|apply Z.div_lt_upper_bound]); lia).
  f_equal. f_equal; Z.div_mod_to_equations; lia.
Qed.

(** The acknowledgment of a block number that came out of [struct.unpack]
    always packs. *)
Lemma struct_pack_ack (block : Z) :
  0 <= block < 65536 ->
  struct_pack_HH 4 block =
    Some [x00; x04; byte_of_Z (block / 256); byte_of_Z (block mod 256)].
Proof.
  intros Hb. unfold struct_pack_HH.
  rewrite (struct_pack_H_in_range block Hb). reflexivity.
Qed.

Lemma firstn_4_firstn_516 (data : bytes) : firstn 4 (firstn 516 data) = firstn 4 data.
Proof.
  rewrite firstn_firstn. reflexivity.
Qed.

(** ** One pass of the loop, case by case *)

Ltac step_iteration :=
  cbn -[firstn skipn Nat.ltb Z.gtb Z.add Z.eqb Z.div Z.modulo
        struct_pack_HH struct_unpack_HH byte_of_Z max_retries truthy].

Ltac run_iteration :=
  unfold iteration, try_except_timeout, bind, ret, raise, recvfrom, lift_struct,
    logging, emit, sendto, file_write, with_events, written_fs, accept_events;
  step_iteration.

Lemma iteration_short sa file data src l w :
  struct_unpack_HH (firstn 4 data) = None ->
  iteration sa file (Datagram data src) l w =
    (Exn StructError, with_events w [EvRecv (firstn 516 data) src]).
Proof.
  intros H. run_iteration. rewrite firstn_4_firstn_516, H. reflexivity.
Qed.

Lemma iteration_unexpected_opcode sa file data src l w opcode block :
  struct_unpack_HH (firstn 4 data) = Some (opcode, block) ->
  opcode <> 3 ->
  iteration sa file (Datagram data src) l w =
    (Ok (Break UnexpectedOpcode, l),
     with_events w [EvRecv (firstn 516 data) src;
                    EvLog ERROR (MsgUnexpectedOpcode opcode)]).
Proof.
  intros H Hop. run_iteration. rewrite firstn_4_firstn_516, H. step_iteration.
  destruct (Z.eqb_spec opcode 3) as [?|_]; [contradiction|].
  step_iteration. rewrite <- app_assoc. reflexivity.
Qed.

Lemma iteration_out_of_order sa file data src l w block :
  struct_unpack_HH (firstn 4 data) = Some (3, block) ->
  block <> block_num l ->
  iteration sa file (Datagram data src) l w =
    (Ok (Break OutOfOrderBlock, l),
     with_events w [EvRecv (firstn 516 data) src;
                    EvLog ERROR (MsgOutOfOrder block (block_num l))]).
Proof.
  intros H Hb. run_iteration. rewrite firstn_4_firstn_516, H.
  step_iteration. change (3 =? 3) with true. step_iteration.
  destruct (Z.eqb_spec block (block_num l)) as [?|_]; [contradiction|].
  step_iteration. rewrite <- app_assoc. reflexivity.
Qed.

Lemma iteration_accept sa file data src l w :
  struct_unpack_HH (firstn 4 data) = Some (3, block_num l) ->
  iteration sa file (Datagram data src) l w =
    let d := firstn 516 data in
    let l' := Locals (block_num l + 1) 0 (Some (ack_of (block_num l))) in
    let w' := World (written_fs w file (skipn 4 d)) (sock_timeout w)
                    (trace w ++ accept_events file (block_num l) d src) in
    if (length (skipn 4 d) <? 512)%nat
    then (Ok (Break Finished, l'), with_events w' [EvLog INFO MsgFinished])
    else (Ok (Continue, l'), w').
Proof.
  intros H. pose proof (struct_unpack_HH_range _ _ _ H) as [_ Hb].
  run_iteration. rewrite firstn_4_firstn_516, H.
  step_iteration. change (3 =? 3) with true. rewrite Z.eqb_refl. step_iteration.
  rewrite (struct_pack_ack _ Hb). step_iteration.
  destruct (length (skipn 4 (firstn 516 data)) <? 512)%nat; step_iteration;
    rewrite <- !app_assoc; reflexivity.
Qed.

Lemma iteration_silence sa file l w t :
  sock_timeout w = Some t ->
  iteration sa file Silence l w =
    let l' := Locals (block_num l) (retries l + 1) (ack_packet l) in
    if retries l + 1 >? max_retries
    then (Ok (Break MaxRetriesExceeded, l'),
          with_events w [EvTimedOut t; EvLog ERROR MsgMaxRetries])
    else (Ok (Continue, l'),
          with_events w
            ([EvTimedOut t; EvLog WARNING (MsgRetrying (retries l + 1) max_retries)]
             ++ match truthy (ack_packet l) with
                | Some ack => [EvSendto ack sa]
                | None => []
                end)).
Proof.
  intros H. run_iteration. rewrite H. step_iteration.
  destruct (retries l + 1 >? max_retries); step_iteration.
  - rewrite <- app_assoc. reflexivity.
  - destruct (truthy _); step_iteration; rewrite <- !app_assoc; reflexivity.
Qed.

Lemma iteration_silence_no_timeout sa file l w :
  sock_timeout w = None ->
  iteration sa file Silence l w = (Blocked, w).
Proof.
  intros H. run_iteration. rewrite H. reflexivity.
Qed.

(** ** Traces *)

Lemma sent_app (t1 t2 : list event) : sent (t1 ++ t2) = sent t1 ++ sent t2.
Proof.
  induction t1 as [|e t1 IH]; [reflexivity|].
  destruct e; simpl; rewrite IH; reflexivity.
Qed.

Lemma written_app (t1 t2 : list event) : written (t1 ++ t2) = written t1 ++ written t2.
Proof.
  induction t1 as [|e t1 IH]; [reflexivity|].
  destruct e; simpl; rewrite IH; reflexivity.
Qed.

Lemma receives_app (t1 t2 : list event) :
  receives (t1 ++ t2) = receives t1 ++ receives t2.
Proof.
  induction t1 as [|e t1 IH]; [reflexivity|].
  destruct e; simpl; rewrite IH; reflexivity.
Qed.

(** ** Data segments of a server *)

Lemma struct_unpack_data_segment (block : Z) (payload : bytes) :
  0 <= block < 65536 ->
  struct_unpack_HH (firstn 4 (data_segment block payload)) = Some (3, block).
Proof.
  intros Hb. unfold data_segment. simpl.
  rewrite !Z_of_byte_of_Z
    by (try apply Z.mod_pos_bound; try (split; [apply Z.div_pos|apply Z.div_lt_upper_bound]); lia).
  f_equal. f_equal. Z.div_mod_to_equations; lia.
Qed.

Lemma struct_unpack_ack_of (block : Z) :
  0 <= block < 65536 -> struct_unpack_HH (ack_of block) = Some (4, block).
Proof.
  intros Hb. unfold ack_of. simpl.
  rewrite !Z_of_byte_of_Z
    by (try apply Z.mod_pos_bound; try (split; [apply Z.div_pos|apply Z.div_lt_upper_bound]); lia).
  f_equal. f_equal. Z.div_mod_to_equations; lia.
Qed.

Lemma firstn_516_data_segment (block : Z) (payload : bytes) :
  (length payload <= 512)%nat ->
  firstn 516 (data_segment block payload) = data_segment block payload.
Proof.
  intros H. apply firstn_all2. unfold data_segment. rewrite length_app. simpl. lia.
Qed.

Lemma skipn_4_data_segment (block : Z) (payload : bytes) :
  skipn 4 (data_segment block payload) = payload.
Proof. reflexivity. Qed.

(** ** The loop *)

Lemma receive_loop_cons sa file a rest l w :
  receive_loop sa file (a :: rest) l w =
    match iteration sa file a l w with
    | (Ok (Continue, l'), w') => receive_loop sa file rest l' w'
    | (Ok (Break x, l'), w') => (Exited x l', rest, w')
    | (Exn e, w') => (Raised e l, rest, w')
    | (Blocked, w') => (Awaiting l, a :: rest, w')
    end.
Proof. reflexivity. Qed.

(** A full segment that carries the expected block number is written and
    acknowledged, and the loop goes on. *)
Lemma iteration_full_segment sa file payload src l w c r wr :
  0 <= block_num l < 65536 ->
  length payload = 512%nat ->
  fs w !! file = Some (File c r wr) ->
  iteration sa file (Datagram (data_segment (block_num l) payload) src) l w =
    (Ok (Continue, Locals (block_num l + 1) 0 (Some (ack_of (block_num l)))),
     World (<[file := File (c ++ payload) r wr]> (fs w)) (sock_timeout w)
           (trace w ++ accept_events file (block_num l)
                         (data_segment (block_num l) payload) src)).
Proof.
  intros Hb Hlen Hfile.
  rewrite iteration_accept by (apply struct_unpack_data_segment; exact Hb).
  cbv zeta. rewrite firstn_516_data_segment by lia.
  rewrite skipn_4_data_segment, Hlen.
  unfold written_fs. rewrite Hfile. reflexivity.
Qed.

(** The last segment, shorter than 512 bytes, is written and acknowledged,
    and the loop is left through the [break] of a finished transfer. *)
Lemma iteration_last_segment sa file payload src l w c r wr :
  0 <= block_num l < 65536 ->
  (length payload < 512)%nat ->
  fs w !! file = Some (File c r wr) ->
  iteration sa file (Datagram (data_segment (block_num l) payload) src) l w =
    (Ok (Break Finished, Locals (block_num l + 1) 0 (Some (ack_of (block_num l)))),
     World (<[file := File (c ++ payload) r wr]> (fs w)) (sock_timeout w)
           (trace w ++ accept_events file (block_num l)
                         (data_segment (block_num l) payload) src
                   ++ [EvLog INFO MsgFinished])).
Proof.
  intros Hb Hlen Hfile.
  rewrite iteration_accept by (apply struct_unpack_data_segment; exact Hb).
  cbv zeta. rewrite firstn_516_data_segment by lia.
  rewrite skipn_4_data_segment.
  destruct (Nat.ltb_spec (length payload) 512) as [_|?]; [|lia].
  unfold written_fs, with_events. rewrite Hfile. simpl.
  rewrite <- app_assoc. reflexivity.
Qed.

(** A run of full segments numbered from the expected block on: the loop
    accepts them all and stands where it stood, that many blocks later. *)
Lemma receive_loop_full_run sa file rest (fulls : list (bytes * address)) :
  forall l w c r wr,
    Forall (fun s => length (fst s) = 512%nat) fulls ->
    0 <= block_num l ->
    block_num l + Z.of_nat (length fulls) <= 65536 ->
    fs w !! file = Some (File c r wr) ->
    exists l' w',
      receive_loop sa file (server_run (block_num l) fulls ++ rest) l w =
        receive_loop sa file rest l' w'
      /\ block_num l' = block_num l + Z.of_nat (length fulls)
      /\ fs w' !! file = Some (File (c ++ concat (map fst fulls)) r wr)
      /\ sock_timeout w' = sock_timeout w
      /\ trace w' = trace w ++ run_events file (block_num l) fulls.
Proof.
  induction fulls as [|[payload src] fulls IH]; intros l w c r wr Hfull Hlo Hhi Hfile.
  - exists l, w. simpl. rewrite !app_nil_r, Z.add_0_r. auto.
  - inversion Hfull as [|? ? Hlen Hfull']; subst. simpl in Hlen.
    rewrite length_cons in Hhi.
    cbn [server_run app]. rewrite receive_loop_cons.
    rewrite (iteration_full_segment sa file payload src l w c r wr) by (auto; lia).
    set (l1 := Locals (block_num l + 1) 0 (Some (ack_of (block_num l)))).
    set (w1 := World _ _ _).
    destruct (IH l1 w1 (c ++ payload) r wr) as (l' & w' & Hrun & Hblk & Hfs & Hto & Htr).
    + exact Hfull'.
    + simpl. lia.
    + simpl. lia.
    + simpl. apply lookup_insert_eq.
    + exists l', w'. simpl in *. rewrite Hrun, Hblk, Hfs, Hto, Htr.
      rewrite <- !app_assoc. repeat split; try reflexivity. lia.
Qed.

Lemma server_run_app (first : Z) (s1 s2 : list (bytes * address)) :
  server_run first (s1 ++ s2) =
    server_run first s1 ++ server_run (first + Z.of_nat (length s1)) s2.
Proof.
  revert first. induction s1 as [|[payload src] s1 IH]; intros first.
  - simpl. rewrite Z.add_0_r. reflexivity.
  - cbn [server_run app length]. rewrite IH. do 3 f_equal. lia.
Qed.

Lemma run_events_app (file : string) (first : Z) (s1 s2 : list (bytes * address)) :
  run_events file first (s1 ++ s2) =
    run_events file first s1 ++ run_events file (first + Z.of_nat (length s1)) s2.
Proof.
  revert first. induction s1 as [|[payload src] s1 IH]; intros first.
  - simpl. rewrite Z.add_0_r. reflexivity.
  - cbn [run_events app length]. rewrite IH, <- app_assoc. do 3 f_equal. lia.
Qed.

Lemma sent_run_events (file : string) (segs : list (bytes * address)) :
  forall first,
    sent (run_events file first segs) =
      zip_with (fun i s => (ack_of i, snd s))
               (seqZ first (Z.of_nat (length segs))) segs.
Proof.
  induction segs as [|[payload src] segs IH]; intros first.
  - reflexivity.
  - rewrite seqZ_cons by (rewrite length_cons; lia).
    cbn [run_events accept_events app sent zip_with snd]. rewrite IH.
    do 3 f_equal. rewrite length_cons. lia.
Qed.

Lemma written_run_events (file : string) (segs : list (bytes * address)) :
  forall first, written (run_events file first segs) = map fst segs.
Proof.
  induction segs as [|[payload src] segs IH]; intros first.
  - reflexivity.
  - cbn [run_events accept_events app written map fst]. rewrite IH.
    rewrite skipn_4_data_segment. reflexivity.
Qed.

(** [open(path, 'wb')], when it returns, leaves an empty writable file. *)
Lemma open_wb_ok (path handle : string) (w w1 : world) :
  open_wb path w = (Ok handle, w1) ->
  handle = path
  /\ (exists r, fs w1 = <[path := File [] r true]> (fs w))
  /\ sock_timeout w1 = sock_timeout w
  /\ trace w1 = trace w ++ [EvOpenWb path].
Proof.
  unfold open_wb. destruct (fs w !! path) as [[c r [|]|]|]; intros [= <- <-]; simpl; eauto.
Qed.

(** ** The transfer engine on a well-behaved server *)

(** C1. With the output file opened, a server run of N full 512-byte segments
    and one shorter last segment, all data segments numbered 1, 2, ..., N+1 (as
    far as the 16-bit block field counts), makes [receive_data] return after
    exactly these datagrams, having sent the acknowledgments of blocks
    1, ..., N+1 in this order, each to the endpoint its segment came from, and
    leaves in the output file the payloads concatenated, byte for byte. *)
Theorem well_behaved_transfer sa filename (fulls : list (bytes * address))
    (last : bytes * address) rest w w1 :
  open_wb filename w = (Ok filename, w1) ->
  Forall (fun s => length (fst s) = 512%nat) fulls ->
  (length (fst last) < 512)%nat ->
  Z.of_nat (length fulls) + 1 < 65536 ->
  exists w',
    receive_data sa filename (server_run 1 (fulls ++ [last]) ++ rest) w = (Ok tt, rest, w')
    /\ sent (trace w') =
         sent (trace w) ++
         zip_with (fun i s => (ack_of i, snd s))
                  (seqZ 1 (Z.of_nat (length fulls) + 1)) (fulls ++ [last])
    /\ written (trace w') = written (trace w) ++ map fst (fulls ++ [last])
    /\ exists r wr,
         fs w' !! filename = Some (File (concat (map fst (fulls ++ [last]))) r wr).
Proof.
  intros Hopen Hfull Hlast Hn.
  destruct (open_wb_ok _ _ _ _ Hopen) as (_ & [r Hfs1] & Hto1 & Htr1).
  assert (Hfile1 : fs w1 !! filename = Some (File [] r true))
    by (rewrite Hfs1; apply lookup_insert_eq).
  unfold receive_data. rewrite Hopen.
  rewrite server_run_app, <- app_assoc.
  destruct (receive_loop_full_run sa filename
              (server_run (1 + Z.of_nat (length fulls)) [last] ++ rest)
              fulls initial_locals w1 [] r true)
    as (l' & w' & Hrun & Hblk & Hfs & Hto & Htr);
    [exact Hfull | simpl; lia | simpl; lia | exact Hfile1 |].
  change (block_num initial_locals) with 1 in *.
  assert (Hrange : 0 <= block_num l' < 65536) by lia.
  rewrite Hrun. destruct last as [payload src]. cbn [server_run app fst] in *.
  rewrite receive_loop_cons. rewrite <- Hblk.
  rewrite (iteration_last_segment sa filename payload src l' w' _ r true Hrange Hlast Hfs).
  eexists. split; [reflexivity|].
  unfold file_close, emit. cbn [snd fs trace sock_timeout].
  rewrite Htr, Htr1, Hblk.
  replace (accept_events filename (1 + Z.of_nat (length fulls))
             (data_segment (1 + Z.of_nat (length fulls)) payload) src)
    with (run_events filename (1 + Z.of_nat (length fulls)) [(payload, src)])
    by reflexivity.
  rewrite <- !app_assoc.
  rewrite (app_assoc (run_events _ _ fulls)), <- run_events_app.
  split; [|split].
  - rewrite !sent_app, sent_run_events. cbn [sent app]. rewrite app_nil_r.
    rewrite length_app. cbn [length]. do 3 f_equal. lia.
  - rewrite !written_app, written_run_events. cbn [written app].
    rewrite app_nil_r. reflexivity.
  - exists r, true. rewrite lookup_insert_eq.
    rewrite map_app, concat_app. cbn [map concat fst]. rewrite app_nil_r. reflexivity.
Qed.

Lemma well_behaved_transfer_witness :
  exists w',
    receive_data loopback "data.txt"
      (server_run 1 ([(full_payload, peer)] ++ [([x62; x79; x65], peer)]) ++ [Silence])
      example_world = (Ok tt, [Silence], w')
    /\ sent (trace w') =
         sent (trace example_world) ++
         zip_with (fun i s => (ack_of i, snd s))
                  (seqZ 1 (Z.of_nat (length [(full_payload, peer)]) + 1))
                  ([(full_payload, peer)] ++ [([x62; x79; x65], peer)])
    /\ written (trace w') =
         written (trace example_world) ++
         map fst ([(full_payload, peer)] ++ [([x62; x79; x65], peer)])
    /\ exists r wr,
         fs w' !! "data.txt"%string =
           Some (File (concat (map fst ([(full_payload, peer)] ++ [([x62; x79; x65], peer)])))
                      r wr).
Proof.
  apply (well_behaved_transfer loopback "data.txt" [(full_payload, peer)]
           ([x62; x79; x65], peer) [Silence] example_world example_opened).
  - reflexivity.
  - repeat constructor.
  - simpl. lia.
  - simpl. lia.
Defined.

Lemma receive_loop_app sa file (pre s : list arrival) :
  forall l w l' w',
    receive_loop sa file pre l w = (Awaiting l', [], w') ->
    receive_loop sa file (pre ++ s) l w = receive_loop sa file s l' w'.
Proof.
  induction pre as [|a pre IH]; intros l w l' w' H.
  - simpl in H. injection H as <- <-. reflexivity.
  - cbn [app]. rewrite receive_loop_cons in *.
    destruct (iteration sa file a l w) as [[[[|x] l1]|e|] w1]; try discriminate.
    apply IH. exact H.
Qed.

Lemma struct_unpack_short (data : bytes) :
  (length data < 4)%nat -> struct_unpack_HH (firstn 4 data) = None.
Proof.
  destruct data as [|a [|b [|c [|d t]]]]; simpl; intros H; try reflexivity; lia.
Qed.

Lemma struct_unpack_long (data : bytes) :
  (4 <= length data)%nat ->
  exists opcode block, struct_unpack_HH (firstn 4 data) = Some (opcode, block).
Proof.
  destruct data as [|a [|b [|c [|d t]]]]; simpl; intros H; try lia.
  eexists _, _. reflexivity.
Qed.

(** ** Rejected datagrams *)

(** C2. A data segment whose block number is not the expected one ends the
    loop through the out-of-order [break] (after the matching error is
    logged): nothing of the datagram is written, nothing is sent, and the
    locals (expected block, retry counter, last acknowledgment) are those the
    pass started with. A duplicate of an earlier block is one such segment. *)
Theorem out_of_order_block_is_fatal sa file data src rest l w block :
  struct_unpack_HH (firstn 4 data) = Some (3, block) ->
  block <> block_num l ->
  exists w',
    receive_loop sa file (Datagram data src :: rest) l w
      = (Exited OutOfOrderBlock l, rest, w')
    /\ fs w' = fs w
    /\ written (trace w') = written (trace w)
    /\ sent (trace w') = sent (trace w)
    /\ trace w' = trace w ++ [EvRecv (firstn 516 data) src;
                              EvLog ERROR (MsgOutOfOrder block (block_num l))].
Proof.
  intros Hunpack Hblock. eexists. split.
  - rewrite receive_loop_cons.
    rewrite (iteration_out_of_order sa file data src l w block Hunpack Hblock).
    reflexivity.
  - unfold with_events. cbn [fs trace].
    rewrite written_app, sent_app. cbn [written sent]. rewrite !app_nil_r. auto.
Qed.

Lemma out_of_order_block_is_fatal_witness :
  exists w',
    receive_loop loopback "data.txt"
      [Datagram (data_segment 2 [x61]) peer; Silence] initial_locals example_opened
      = (Exited OutOfOrderBlock initial_locals, [Silence], w')
    /\ fs w' = fs example_opened
    /\ written (trace w') = written (trace example_opened)
    /\ sent (trace w') = sent (trace example_opened)
    /\ trace w' = trace example_opened ++
                    [EvRecv (firstn 516 (data_segment 2 [x61])) peer;
                     EvLog ERROR (MsgOutOfOrder 2 (block_num initial_locals))].
Proof.
  apply (out_of_order_block_is_fatal loopback "data.txt" (data_segment 2 [x61]) peer
           [Silence] initial_locals example_opened 2).
  - reflexivity.
  - discriminate.
Defined.

(** C6. A datagram whose opcode is not 3 ends the loop through the
    unexpected-opcode [break] (after the matching error is logged), and
    nothing of it is written to the output file. *)
Theorem unexpected_opcode_is_fatal sa file data src rest l w opcode block :
  struct_unpack_HH (firstn 4 data) = Some (opcode, block) ->
  opcode <> 3 ->
  exists w',
    receive_loop sa file (Datagram data src :: rest) l w
      = (Exited UnexpectedOpcode l, rest, w')
    /\ fs w' = fs w
    /\ written (trace w') = written (trace w)
    /\ sent (trace w') = sent (trace w)
    /\ trace w' = trace w ++ [EvRecv (firstn 516 data) src;
                              EvLog ERROR (MsgUnexpectedOpcode opcode)].
Proof.
  intros Hunpack Hopcode. eexists. split.
  - rewrite receive_loop_cons.
    rewrite (iteration_unexpected_opcode sa file data src l w opcode block Hunpack Hopcode).
    reflexivity.
  - unfold with_events. cbn [fs trace].
    rewrite written_app, sent_app. cbn [written sent]. rewrite !app_nil_r. auto.
Qed.

Lemma unexpected_opcode_is_fatal_witness :
  exists w',
    receive_loop loopback "data.txt"
      [Datagram [x00; x05; x00; x01; x4e; x6f; x00] peer] initial_locals example_opened
      = (Exited UnexpectedOpcode initial_locals, [], w')
    /\ fs w' = fs example_opened
    /\ written (trace w') = written (trace example_opened)
    /\ sent (trace w') = sent (trace example_opened)
    /\ trace w' = trace example_opened ++
                    [EvRecv (firstn 516 [x00; x05; x00; x01; x4e; x6f; x00]) peer;
                     EvLog ERROR (MsgUnexpectedOpcode 5)].
Proof.
  apply (unexpected_opcode_is_fatal loopback "data.txt"
           [x00; x05; x00; x01; x4e; x6f; x00] peer [] initial_locals example_opened 5 1).
  - reflexivity.
  - discriminate.
Defined.

(** C9. A datagram of fewer than four bytes makes [struct.unpack] raise; the
    only handler of the loop is for [socket.timeout], so the exception leaves
    the loop and [receive_data] (the file is closed on the way): none of the
    four [break]s is reached. Any datagram of four bytes or more is parsed and
    the pass completes. *)
Theorem short_datagram_escapes sa filename pre data src rest w0 w1 l w :
  open_wb filename w0 = (Ok filename, w1) ->
  receive_loop sa filename pre initial_locals w1 = (Awaiting l, [], w) ->
  (length data < 4)%nat ->
  receive_loop sa filename (Datagram data src :: rest) l w
    = (Raised StructError l, rest, with_events w [EvRecv (firstn 516 data) src])
  /\ receive_data sa filename (pre ++ Datagram data src :: rest) w0
     = (Exn StructError, rest,
        with_events w [EvRecv (firstn 516 data) src; EvFileClose filename])
  /\ forall longer,
       (4 <= length longer)%nat ->
       exists c l' w',
         iteration sa filename (Datagram longer src) l w = (Ok (c, l'), w').
Proof.
  intros Hopen Hpre Hshort.
  assert (Hloop : receive_loop sa filename (Datagram data src :: rest) l w
    = (Raised StructError l, rest, with_events w [EvRecv (firstn 516 data) src])).
  { rewrite receive_loop_cons.
    rewrite (iteration_short sa filename data src l w (struct_unpack_short data Hshort)).
    reflexivity. }
  split; [exact Hloop|]. split.
  - unfold receive_data. rewrite Hopen.
    rewrite (receive_loop_app sa filename pre _ _ _ _ _ Hpre), Hloop.
    unfold file_close, emit, with_events. cbn [snd fs sock_timeout trace].
    rewrite <- app_assoc. reflexivity.
  - intros longer Hlong.
    destruct (struct_unpack_long longer Hlong) as (opcode & block & Hunpack).
    destruct (Z.eq_dec opcode 3) as [->|Hop].
    + destruct (Z.eq_dec block (block_num l)) as [->|Hblk].
      * rewrite (iteration_accept sa filename longer src l w Hunpack). cbv zeta.
        destruct (_ <? _)%nat; eauto.
      * rewrite (iteration_out_of_order sa filename longer src l w block Hunpack Hblk).
        eauto.
    + rewrite (iteration_unexpected_opcode sa filename longer src l w opcode block Hunpack Hop).
      eauto.
Qed.

Lemma short_datagram_escapes_witness :
  receive_loop loopback "data.txt" [Datagram [x00; x03; x00] peer]
      initial_locals example_opened
    = (Raised StructError initial_locals, [],
       with_events example_opened [EvRecv (firstn 516 [x00; x03; x00]) peer])
  /\ receive_data loopback "data.txt" ([] ++ [Datagram [x00; x03; x00] peer]) example_world
     = (Exn StructError, [],
        with_events example_opened
          [EvRecv (firstn 516 [x00; x03; x00]) peer; EvFileClose "data.txt"])
  /\ forall longer,
       (4 <= length longer)%nat ->
       exists c l' w',
         iteration loopback "data.txt" (Datagram longer peer)
           initial_locals example_opened = (Ok (c, l'), w').
Proof.
  apply (short_datagram_escapes loopback "data.txt" [] [x00; x03; x00] peer []
           example_world example_opened initial_locals example_opened).
  - reflexivity.
  - reflexivity.
  - simpl. lia.
Defined.

(** ** The request and [main] *)

Lemma send_rrq_ok sa filename w c wr :
  fs w !! filename = Some (File c true wr) ->
  send_rrq sa filename w =
    (Ok tt, with_events w [EvSendto (read_request filename) sa;
                           EvPrint (PrintStarting (fst sa) (snd sa) filename)]).
Proof.
  intros H. unfold send_rrq, bind, os_path_isfile, os_access_R_OK, lift_struct,
    sendto, print, emit, ret, with_events.
  rewrite H. cbn [negb fs sock_timeout trace struct_pack_H]. rewrite H.
  unfold read_request. simpl. rewrite <- app_assoc. reflexivity.
Qed.

(** A path that names no regular file: one line is printed, nothing is sent. *)
Lemma send_rrq_not_a_file sa filename w :
  (forall c r wr, fs w !! filename <> Some (File c r wr)) ->
  send_rrq sa filename w = (Ok tt, with_events w [EvPrint (PrintDoesNotExist filename)]).
Proof.
  intros H. unfold send_rrq, bind, os_path_isfile, print, emit, with_events.
  destruct (fs w !! filename) as [[c r wr|]|] eqn:E; try reflexivity.
  exfalso. apply (H c r wr). reflexivity.
Qed.

(** A file that cannot be read: one line is printed, nothing is sent. *)
Lemma send_rrq_unreadable sa filename w c wr :
  fs w !! filename = Some (File c false wr) ->
  send_rrq sa filename w = (Ok tt, with_events w [EvPrint (PrintCannotBeRead filename)]).
Proof.
  intros H. unfold send_rrq, bind, os_path_isfile, os_access_R_OK, print, emit,
    with_events.
  rewrite H. cbn [negb fs sock_timeout trace]. rewrite H. reflexivity.
Qed.

(** [main] in read mode, once the local check has passed. *)
Lemma main_rx_checked args script w c wr :
  m args = "rx"%string ->
  fs w !! file args = Some (File c true wr) ->
  main args script w =
    let sa : address := ("127.0.0.1"%string, p args) in
    match receive_data sa (file args) script
            (World (fs w) (Some 2)
               (trace w ++ [EvSettimeout 2; EvSendto (read_request (file args)) sa;
                            EvPrint (PrintStarting "127.0.0.1" (p args) (file args))]))
    with
    | (Blocked, rest, w3) => (Blocked, rest, w3)
    | (r, rest, w3) => (r, rest, with_events w3 [EvSocketClose])
    end.
Proof.
  intros Hm Hfile. unfold main. rewrite Hm. cbn [String.eqb Ascii.eqb Bool.eqb].
  cbv zeta.
  rewrite (send_rrq_ok _ _ _ c wr) by exact Hfile.
  unfold socket_socket, settimeout, with_events. cbn [snd fst fs sock_timeout trace].
  rewrite <- app_assoc. cbn [app].
  destruct (receive_data _ _ _ _) as [[[v|e|] rest] w3]; reflexivity.
Qed.

Lemma with_events_app w evs1 evs2 :
  with_events (with_events w evs1) evs2 = with_events w (evs1 ++ evs2).
Proof.
  unfold with_events. cbn [fs sock_timeout trace]. rewrite app_assoc. reflexivity.
Qed.

(** ** A server that never answers *)

Lemma receive_loop_silence_retry sa file rest l w t :
  sock_timeout w = Some t ->
  retries l + 1 <= max_retries ->
  ack_packet l = None ->
  receive_loop sa file (Silence :: rest) l w =
    receive_loop sa file rest (Locals (block_num l) (retries l + 1) None)
      (with_events w [EvTimedOut t;
                      EvLog WARNING (MsgRetrying (retries l + 1) max_retries)]).
Proof.
  intros Ht Hle Hack. rewrite receive_loop_cons, (iteration_silence sa file l w t Ht).
  cbv zeta. destruct (Z.gtb_spec (retries l + 1) max_retries) as [?|_]; [lia|].
  rewrite Hack. reflexivity.
Qed.

Lemma receive_loop_silence_give_up sa file rest l w t :
  sock_timeout w = Some t ->
  retries l + 1 > max_retries ->
  receive_loop sa file (Silence :: rest) l w =
    (Exited MaxRetriesExceeded (Locals (block_num l) (retries l + 1) (ack_packet l)),
     rest, with_events w [EvTimedOut t; EvLog ERROR MsgMaxRetries]).
Proof.
  intros Ht Hgt. rewrite receive_loop_cons, (iteration_silence sa file l w t Ht).
  cbv zeta. destruct (Z.gtb_spec (retries l + 1) max_retries) as [_|?]; [|lia].
  reflexivity.
Qed.

Lemma receive_loop_four_silences sa file rest w t :
  sock_timeout w = Some t ->
  receive_loop sa file (Silence :: Silence :: Silence :: Silence :: rest)
      initial_locals w =
    (Exited MaxRetriesExceeded (Locals 1 4 None), rest,
     with_events w
       [EvTimedOut t; EvLog WARNING (MsgRetrying 1 3);
        EvTimedOut t; EvLog WARNING (MsgRetrying 2 3);
        EvTimedOut t; EvLog WARNING (MsgRetrying 3 3);
        EvTimedOut t; EvLog ERROR MsgMaxRetries]).
Proof.
  intros H.
  do 3 (rewrite (receive_loop_silence_retry sa file _ _ _ t)
          by (try exact H; try reflexivity; unfold max_retries; simpl; lia);
        try rewrite with_events_app).
  rewrite (receive_loop_silence_give_up sa file _ _ _ t)
    by (try exact H; unfold max_retries; simpl; lia).
  rewrite with_events_app. reflexivity.
Qed.

(** One timeout: the retry counter goes up by one, the loop is left exactly
    when the counter has passed [max_retries], and at most one datagram (the
    last acknowledgment again) is sent. *)
Lemma iteration_silence_counts sa file l w t :
  sock_timeout w = Some t ->
  exists c w',
    iteration sa file Silence l w =
      (Ok (c, Locals (block_num l) (retries l + 1) (ack_packet l)), w')
    /\ (c = Break MaxRetriesExceeded <-> retries l + 1 > max_retries)
    /\ (c = Continue <-> retries l + 1 <= max_retries)
    /\ (length (sent (trace w')) <= length (sent (trace w)) + 1)%nat.
Proof.
  intros H. rewrite (iteration_silence sa file l w t H). cbv zeta.
  destruct (Z.gtb_spec (retries l + 1) max_retries) as [Hgt|Hle].
  - eexists _, _. split; [reflexivity|]. unfold with_events. cbn [trace].
    rewrite sent_app. cbn [sent]. rewrite app_nil_r.
    repeat split; try discriminate; try lia; auto.
  - eexists _, _. split; [reflexivity|]. unfold with_events. cbn [trace].
    rewrite sent_app, length_app.
    repeat split; try discriminate; try lia; auto.
    destruct (truthy _); cbn; lia.
Qed.

(** C3. In read mode, with a port the socket can address, the local check
    passed and the output file opened,
    a server that stays silent makes [main] send the read request once, wait
    four times for the 2 seconds set on the socket, log three retries and then
    the final error, and leave the loop through the [break] of exhausted
    retries with the counter at 4; no acknowledgment exists to be sent again,
    so the request is the only datagram sent. At every timeout the counter is
    incremented and the loop is left exactly when it has passed 3. *)
Theorem silent_server_exhausts_retries args rest w c :
  m args = "rx"%string ->
  0 < p args < 65536 ->
  fs w !! file args = Some (File c true true) ->
  let sa : address := ("127.0.0.1"%string, p args) in
  exists w',
    main args (Silence :: Silence :: Silence :: Silence :: rest) w = (Ok tt, rest, w')
    /\ trace w' =
         trace w ++
         [EvSettimeout 2; EvSendto (read_request (file args)) sa;
          EvPrint (PrintStarting "127.0.0.1" (p args) (file args));
          EvOpenWb (file args);
          EvTimedOut 2; EvLog WARNING (MsgRetrying 1 3);
          EvTimedOut 2; EvLog WARNING (MsgRetrying 2 3);
          EvTimedOut 2; EvLog WARNING (MsgRetrying 3 3);
          EvTimedOut 2; EvLog ERROR MsgMaxRetries;
          EvFileClose (file args); EvSocketClose]
    /\ sent (trace w') = sent (trace w) ++ [(read_request (file args), sa)]
    /\ (forall w1,
          sock_timeout w1 = Some 2 ->
          fst (fst (receive_loop sa (file args)
                      (Silence :: Silence :: Silence :: Silence :: rest)
                      initial_locals w1))
            = Exited MaxRetriesExceeded (Locals 1 4 None))
    /\ (forall l w1 t,
          sock_timeout w1 = Some t ->
          exists k w2,
            iteration sa (file args) Silence l w1 =
              (Ok (k, Locals (block_num l) (retries l + 1) (ack_packet l)), w2)
            /\ (k = Break MaxRetriesExceeded <-> retries l + 1 > 3)
            /\ (k = Continue <-> retries l + 1 <= 3)
            /\ (length (sent (trace w2)) <= length (sent (trace w1)) + 1)%nat).
Proof.
  intros Hm _ Hfile sa.
  rewrite (main_rx_checked args _ w c true Hm Hfile). cbv zeta. fold sa.
  unfold receive_data, open_wb. cbn [fs sock_timeout trace]. rewrite Hfile.
  rewrite (receive_loop_four_silences sa (file args) rest _ 2) by reflexivity.
  unfold file_close, emit, with_events. cbn [snd fs sock_timeout trace].
  eexists. split; [reflexivity|]. cbn [trace].
  rewrite <- !app_assoc. cbn [app].
  split; [reflexivity|]. split.
  - rewrite sent_app. cbn [sent]. reflexivity.
  - split.
    + intros w1 H1. rewrite (receive_loop_four_silences sa (file args) rest w1 2 H1).
      reflexivity.
    + intros l w1 t H1. apply (iteration_silence_counts sa (file args) l w1 t H1).
Qed.

Lemma silent_server_exhausts_retries_witness :
  let args := Namespace "data.txt" "rx" 6969 in
  let sa : address := ("127.0.0.1"%string, p args) in
  exists w',
    main args [Silence; Silence; Silence; Silence; Silence] example_world
      = (Ok tt, [Silence], w')
    /\ trace w' =
         trace example_world ++
         [EvSettimeout 2; EvSendto (read_request (file args)) sa;
          EvPrint (PrintStarting "127.0.0.1" (p args) (file args));
          EvOpenWb (file args);
          EvTimedOut 2; EvLog WARNING (MsgRetrying 1 3);
          EvTimedOut 2; EvLog WARNING (MsgRetrying 2 3);
          EvTimedOut 2; EvLog WARNING (MsgRetrying 3 3);
          EvTimedOut 2; EvLog ERROR MsgMaxRetries;
          EvFileClose (file args); EvSocketClose]
    /\ sent (trace w') = sent (trace example_world) ++ [(read_request (file args), sa)]
    /\ (forall w1,
          sock_timeout w1 = Some 2 ->
          fst (fst (receive_loop sa (file args)
                      [Silence; Silence; Silence; Silence; Silence]
                      initial_locals w1))
            = Exited MaxRetriesExceeded (Locals 1 4 None))
    /\ (forall l w1 t,
          sock_timeout w1 = Some t ->
          exists k w2,
            iteration sa (file args) Silence l w1 =
              (Ok (k, Locals (block_num l) (retries l + 1) (ack_packet l)), w2)
            /\ (k = Break MaxRetriesExceeded <-> retries l + 1 > 3)
            /\ (k = Continue <-> retries l + 1 <= 3)
            /\ (length (sent (trace w2)) <= length (sent (trace w1)) + 1)%nat).
Proof.
  apply (silent_server_exhausts_retries (Namespace "data.txt" "rx" 6969)
           [Silence] example_world [x68; x69]).
  - reflexivity.
  - cbn [p]. lia.
  - reflexivity.
Defined.

(** ** Every pass of the loop *)

(** Splits on the path the pass takes for the arrival [a] and rewrites
    [iteration] in the goal by what that path does. *)
Ltac case_iteration sa file a l w :=
  let data := fresh "data" in
  let src := fresh "src" in
  let opcode := fresh "opcode" in
  let block := fresh "block" in
  let t := fresh "t" in
  let Hunpack := fresh "Hunpack" in
  let Hopcode := fresh "Hopcode" in
  let Hblock := fresh "Hblock" in
  let Htimeout := fresh "Htimeout" in
  destruct a as [data src|];
  [ destruct (struct_unpack_HH (firstn 4 data)) as [[opcode block]|] eqn:Hunpack;
    [ destruct (Z.eq_dec opcode 3) as [->|Hopcode];
      [ destruct (Z.eq_dec block (block_num l)) as [->|Hblock];
        [ rewrite (iteration_accept sa file data src l w Hunpack); cbv zeta
        | rewrite (iteration_out_of_order sa file data src l w block Hunpack Hblock) ]
      | rewrite (iteration_unexpected_opcode sa file data src l w opcode block
                   Hunpack Hopcode) ]
    | rewrite (iteration_short sa file data src l w Hunpack) ]
  | destruct (sock_timeout w) as [t|] eqn:Htimeout;
    [ rewrite (iteration_silence sa file l w t Htimeout); cbv zeta
    | rewrite (iteration_silence_no_timeout sa file l w Htimeout) ] ].

(** Whichever [break] ends the loop, the record logged just before it tells
    which one it was. *)
Lemma receive_loop_exit_announced sa file (script : list arrival) :
  forall l w x l' rest w',
    receive_loop sa file script l w = (Exited x l', rest, w') ->
    exists pre e, trace w' = pre ++ [e] /\ announces x e.
Proof.
  induction script as [|a script IH]; intros l w x l' rest w'.
  - discriminate.
  - rewrite receive_loop_cons. case_iteration sa file a l w.
    + destruct (_ <? _)%nat.
      * intros [= <- <- <- <-]. unfold with_events. cbn [trace].
        eexists _, _. split; [reflexivity|]. reflexivity.
      * apply IH.
    + intros [= <- <- <- <-]. unfold with_events. cbn [trace].
      exists (trace w ++ [EvRecv (firstn 516 data) src]), (EvLog ERROR (MsgOutOfOrder block (block_num l))).
      split; [rewrite <- app_assoc; reflexivity|]. cbn. eauto.
    + intros [= <- <- <- <-]. unfold with_events. cbn [trace].
      exists (trace w ++ [EvRecv (firstn 516 data) src]), (EvLog ERROR (MsgUnexpectedOpcode opcode)).
      split; [rewrite <- app_assoc; reflexivity|]. cbn. eauto.
    + discriminate.
    + destruct (_ >? _).
      * intros [= <- <- <- <-]. unfold with_events. cbn [trace].
        exists (trace w ++ [EvTimedOut t]), (EvLog ERROR MsgMaxRetries).
        split; [rewrite <- app_assoc; reflexivity|]. reflexivity.
      * apply IH.
    + discriminate.
Qed.

(** The loop only ever appends to the trace and to the output file. *)
Lemma receive_loop_appends sa file (script : list arrival) :
  forall l w c r wr res rest w',
    fs w !! file = Some (File c r wr) ->
    receive_loop sa file script l w = (res, rest, w') ->
    exists evs,
      trace w' = trace w ++ evs
      /\ fs w' !! file = Some (File (c ++ concat (written evs)) r wr)
      /\ sock_timeout w' = sock_timeout w.
Proof.
  induction script as [|a script IH]; intros l w c r wr res rest w' Hfile.
  - intros [= <- <- <-]. exists []. rewrite !app_nil_r. auto.
  - rewrite receive_loop_cons. case_iteration sa file a l w.
    + set (payload := skipn 4 (firstn 516 data)).
      assert (Hfile' : written_fs w file payload !! file
                       = Some (File (c ++ payload) r wr))
        by (unfold written_fs; rewrite Hfile; apply lookup_insert_eq).
      destruct (_ <? _)%nat.
      * intros [= <- <- <-]. unfold with_events. cbn [trace fs sock_timeout].
        eexists. rewrite <- app_assoc. split; [reflexivity|].
        rewrite written_app. cbn [accept_events written concat app].
        fold payload. rewrite !app_nil_r. auto.
      * intros Hloop.
        destruct (IH _ (World _ _ _) _ _ _ _ _ _ Hfile' Hloop) as (evs & Htr & Hfs & Hto).
        cbn [trace fs sock_timeout] in *.
        eexists. rewrite Htr, <- app_assoc. split; [reflexivity|].
        rewrite written_app. cbn [accept_events written concat app].
        fold payload. rewrite Hfs, <- app_assoc. auto.
    + intros [= <- <- <-]. unfold with_events. cbn [trace fs sock_timeout].
      eexists. split; [reflexivity|]. cbn [written concat]. rewrite app_nil_r. auto.
    + intros [= <- <- <-]. unfold with_events. cbn [trace fs sock_timeout].
      eexists. split; [reflexivity|]. cbn [written concat]. rewrite app_nil_r. auto.
    + intros [= <- <- <-]. unfold with_events. cbn [trace fs sock_timeout].
      eexists. split; [reflexivity|]. cbn [written concat]. rewrite app_nil_r. auto.
    + destruct (_ >? _).
      * intros [= <- <- <-]. unfold with_events. cbn [trace fs sock_timeout].
        eexists. split; [reflexivity|]. cbn [written concat]. rewrite app_nil_r. auto.
      * intros Hloop.
        destruct (IH _ (with_events w _) _ _ _ _ _ _ Hfile Hloop) as (evs & Htr & Hfs & Hto).
        unfold with_events in *. cbn [trace fs sock_timeout] in *.
        eexists. rewrite Htr, <- app_assoc. split; [reflexivity|].
        rewrite written_app.
        assert (Hnone : written ([EvTimedOut t;
                          EvLog WARNING (MsgRetrying (retries l + 1) max_retries)]
                         ++ match truthy (ack_packet l) with
                            | Some ack => [EvSendto ack sa]
                            | None => []
                            end) = [])
          by (destruct (truthy _); reflexivity).
        rewrite Hnone. cbn [app]. split; congruence.
    + intros [= <- <- <-]. exists []. rewrite !app_nil_r. auto.
Qed.

(** ** The expected block number *)

(** C4, as stated, fails: the expected block number is a Python integer and
    does not wrap. After the 65535 full segments of a long transfer it is
    65536, not 0, and the server's next segment, whose 16-bit field has
    wrapped to 0, is refused as out of order. *)
Lemma expected_block_passes_the_16_bit_field :
  exists l w',
    receive_loop loopback "data.txt"
      (server_run 1 (replicate (Z.to_nat 65535) (full_payload, peer))
         ++ [Datagram (data_segment 0 [x7a]) peer])
      initial_locals example_opened
      = (Exited OutOfOrderBlock l, [], w')
    /\ block_num l = 65536
    /\ block_num l <> (65535 + 1) mod 65536.
Proof.
  destruct (receive_loop_full_run loopback "data.txt"
              [Datagram (data_segment 0 [x7a]) peer]
              (replicate (Z.to_nat 65535) (full_payload, peer))
              initial_locals example_opened [] true true)
    as (l' & w' & Hrun & Hblk & _).
  - apply Forall_replicate. reflexivity.
  - cbn [block_num initial_locals]. lia.
  - rewrite length_replicate, Z2Nat.id by lia. cbn [block_num initial_locals]. lia.
  - reflexivity.
  - rewrite length_replicate, Z2Nat.id in Hblk by lia.
    cbn [block_num initial_locals] in Hrun, Hblk.
    assert (Hblk' : block_num l' = 65536) by (rewrite Hblk; reflexivity).
    exists l', (with_events w' [EvRecv (firstn 516 (data_segment 0 [x7a])) peer;
                               EvLog ERROR (MsgOutOfOrder 0 (block_num l'))]).
    split; [|split].
    + rewrite Hrun, receive_loop_cons.
      rewrite (iteration_out_of_order loopback "data.txt" _ peer l' w' 0).
      * reflexivity.
      * reflexivity.
      * rewrite Hblk'. discriminate.
    + exact Hblk'.
    + rewrite Hblk'. discriminate.
Qed.

(** C4, amended. The expected block number starts at 1. A segment is accepted
    only when it is a data segment whose 16-bit block field equals the
    expected number, which therefore lies below 65536, and accepting it adds
    exactly 1 to the expected number, without wrapping. *)
Theorem expected_block_counts_without_wrap sa file data src l w c l' w' :
  iteration sa file (Datagram data src) l w = (Ok (c, l'), w') ->
  c = Continue \/ c = Break Finished ->
  block_num initial_locals = 1
  /\ struct_unpack_HH (firstn 4 data) = Some (3, block_num l)
  /\ 0 <= block_num l < 65536
  /\ block_num l' = block_num l + 1.
Proof.
  intros Hiter Hacc.
  destruct (struct_unpack_HH (firstn 4 data)) as [[opcode block]|] eqn:Hunpack.
  - destruct (Z.eq_dec opcode 3) as [->|Hopcode].
    + destruct (Z.eq_dec block (block_num l)) as [->|Hblock].
      * pose proof (struct_unpack_HH_range _ _ _ Hunpack) as [_ Hrange].
        rewrite (iteration_accept sa file data src l w Hunpack) in Hiter.
        cbv zeta in Hiter.
        destruct (_ <? _)%nat; injection Hiter as <- <- <-; auto.
      * rewrite (iteration_out_of_order sa file data src l w block Hunpack Hblock)
          in Hiter.
        injection Hiter as <- <- <-. destruct Hacc; discriminate.
    + rewrite (iteration_unexpected_opcode sa file data src l w opcode block
                 Hunpack Hopcode) in Hiter.
      injection Hiter as <- <- <-. destruct Hacc; discriminate.
  - rewrite (iteration_short sa file data src l w Hunpack) in Hiter. discriminate.
Qed.

Lemma expected_block_counts_without_wrap_witness :
  block_num initial_locals = 1
  /\ struct_unpack_HH (firstn 4 (data_segment 65535 full_payload))
     = Some (3, block_num (Locals 65535 0 None))
  /\ 0 <= block_num (Locals 65535 0 None) < 65536
  /\ block_num (Locals (65535 + 1) 0 (Some (ack_of 65535)))
     = block_num (Locals 65535 0 None) + 1.
Proof.
  apply (expected_block_counts_without_wrap loopback "data.txt"
           (data_segment 65535 full_payload) peer (Locals 65535 0 None)
           example_opened Continue
           (Locals (65535 + 1) 0 (Some (ack_of 65535)))
           (snd (iteration loopback "data.txt"
                   (Datagram (data_segment 65535 full_payload) peer)
                   (Locals 65535 0 None) example_opened))).
  - vm_compute. reflexivity.
  - left. reflexivity.
Defined.

(** ** Where acknowledgments go *)

(** A full segment and then a timeout: the acknowledgment goes to the
    endpoint the segment came from, its repetition to [server_address]. *)
Lemma receive_loop_segment_then_silence sa file data src rest l w t :
  sock_timeout w = Some t ->
  struct_unpack_HH (firstn 4 data) = Some (3, block_num l) ->
  (512 <= length (skipn 4 (firstn 516 data)))%nat ->
  exists l' w',
    receive_loop sa file (Datagram data src :: Silence :: rest) l w
      = receive_loop sa file rest l' w'
    /\ sent (trace w') =
         sent (trace w) ++ [(ack_of (block_num l), src); (ack_of (block_num l), sa)].
Proof.
  intros Ht Hunpack Hfull.
  rewrite receive_loop_cons, (iteration_accept sa file data src l w Hunpack).
  cbv zeta. destruct (Nat.ltb_spec (length (skipn 4 (firstn 516 data))) 512) as [?|_]; [lia|].
  rewrite receive_loop_cons, (iteration_silence sa file _ _ t) by exact Ht.
  cbv zeta. cbn [retries block_num ack_packet].
  destruct (Z.gtb_spec (0 + 1) max_retries) as [Hgt|_];
    [unfold max_retries in Hgt; lia|].
  eexists _, _. split; [reflexivity|].
  unfold with_events, ack_of. cbn [trace truthy].
  rewrite !sent_app. cbn [accept_events sent app]. rewrite <- app_assoc. reflexivity.
Qed.

(** C5, on the code. The server answers the request from an endpoint of its
    own ([peer], not the [loopback] endpoint the request went to) with a full
    segment and then falls silent. The acknowledgment of block 1 goes to
    [peer]; the one sent again after the timeout goes to [loopback], the
    [server_address] the client was started with. *)
Theorem retransmitted_ack_goes_to_server_address :
  sent (trace (snd (receive_loop loopback "data.txt"
                      [Datagram (data_segment 1 full_payload) peer; Silence]
                      initial_locals example_opened)))
    = [(ack_of 1, peer); (ack_of 1, loopback)]
  /\ peer <> loopback.
Proof.
  split.
  - vm_compute. reflexivity.
  - discriminate.
Qed.

(** ** A failed local check *)

(** [main] in read mode when the path names no regular file: the request is
    not sent, and [receive_data] is called all the same. *)
Lemma main_rx_not_a_file args script w :
  m args = "rx"%string ->
  (forall c r wr, fs w !! file args <> Some (File c r wr)) ->
  main args script w =
    let sa : address := ("127.0.0.1"%string, p args) in
    match receive_data sa (file args) script
            (World (fs w) (Some 2)
               (trace w ++ [EvSettimeout 2; EvPrint (PrintDoesNotExist (file args))]))
    with
    | (Blocked, rest, w3) => (Blocked, rest, w3)
    | (r, rest, w3) => (r, rest, with_events w3 [EvSocketClose])
    end.
Proof.
  intros Hm Hfile. unfold main. rewrite Hm. cbn [String.eqb Ascii.eqb Bool.eqb].
  cbv zeta.
  rewrite send_rrq_not_a_file by exact Hfile.
  unfold socket_socket, settimeout, with_events. cbn [snd fst fs sock_timeout trace].
  rewrite <- app_assoc. cbn [app].
  destruct (receive_data _ _ _ _) as [[[v|e|] rest] w3]; reflexivity.
Qed.

(** C7, on the code. [missing.bin] does not exist and the network is silent.
    [send_rrq] prints its error and sends nothing, but [main] goes on into
    [receive_data]: the file is created, the client waits on the socket four
    times and only then gives up. *)
Theorem missing_file_still_starts_the_engine :
  let run := main (Namespace "missing.bin" "rx" 6969)
                  [Silence; Silence; Silence; Silence] example_world in
  fs example_world !! "missing.bin"%string = None
  /\ fst (fst run) = Ok tt
  /\ trace (snd run) =
       [EvSettimeout 2; EvPrint (PrintDoesNotExist "missing.bin");
        EvOpenWb "missing.bin";
        EvTimedOut 2; EvLog WARNING (MsgRetrying 1 3);
        EvTimedOut 2; EvLog WARNING (MsgRetrying 2 3);
        EvTimedOut 2; EvLog WARNING (MsgRetrying 3 3);
        EvTimedOut 2; EvLog ERROR MsgMaxRetries;
        EvFileClose "missing.bin"; EvSocketClose]
  /\ sent (trace (snd run)) = []
  /\ receives (trace (snd run)) = [EvTimedOut 2; EvTimedOut 2; EvTimedOut 2; EvTimedOut 2]
  /\ fs (snd run) !! "missing.bin"%string = Some (File [] true true).
Proof.
  vm_compute. repeat split; reflexivity.
Qed.

(** ** What [receive_data] returns *)

(** C8, as stated, fails: a transfer that finishes with two bytes written and
    one that gives up after four timeouts both return [None]. *)
Lemma receive_data_returns_none_either_way :
  let good := receive_data loopback "data.txt"
                [Datagram (data_segment 1 [x6f; x6b]) peer] example_world in
  let bad := receive_data loopback "data.txt"
               [Silence; Silence; Silence; Silence] example_world in
  fst (fst (receive_loop loopback "data.txt"
              [Datagram (data_segment 1 [x6f; x6b]) peer] initial_locals example_opened))
    = Exited Finished (Locals 2 0 (Some (ack_of 1)))
  /\ fs (snd good) !! "data.txt"%string = Some (File [x6f; x6b] true true)
  /\ fst (fst (receive_loop loopback "data.txt"
                 [Silence; Silence; Silence; Silence] initial_locals example_opened))
    = Exited MaxRetriesExceeded (Locals 1 4 None)
  /\ fst (fst good) = Ok tt
  /\ fst (fst bad) = Ok tt
  /\ fst (fst good) = fst (fst bad).
Proof.
  vm_compute. repeat split; reflexivity.
Qed.

(** C8, amended. Whenever [receive_data] returns, it returns [None]: the loop
    was left through one of its four [break]s, and which one is told only by
    the record logged last before the file is closed. The bytes written are
    not returned either; they are what the output file holds. *)
Theorem receive_data_returns_none sa filename script w v rest w' :
  receive_data sa filename script w = (Ok v, rest, w') ->
  v = tt
  /\ exists x l w1 w2 pre e evs r,
       open_wb filename w = (Ok filename, w1)
       /\ receive_loop sa filename script initial_locals w1 = (Exited x l, rest, w2)
       /\ trace w' = pre ++ [e; EvFileClose filename]
       /\ announces x e
       /\ trace w2 = trace w1 ++ evs
       /\ fs w' !! filename = Some (File (concat (written evs)) r true).
Proof.
  intros H. split; [destruct v; reflexivity|].
  unfold receive_data in H.
  destruct (open_wb filename w) as [[handle|e|] w1] eqn:Hopen; try discriminate.
  destruct (open_wb_ok _ _ _ _ Hopen) as (-> & [r Hfs1] & _ & _).
  destruct (receive_loop sa filename script initial_locals w1)
    as [[[x l|e l|l] rest'] w2] eqn:Hloop; try discriminate.
  injection H as _ <- <-.
  destruct (receive_loop_exit_announced _ _ _ _ _ _ _ _ _ Hloop) as (pre & e & Htr & Hann).
  assert (Hfile1 : fs w1 !! filename = Some (File [] r true))
    by (rewrite Hfs1; apply lookup_insert_eq).
  destruct (receive_loop_appends _ _ _ _ _ _ _ _ _ _ _ Hfile1 Hloop)
    as (evs & Hevs & Hfs2 & _).
  exists x, l, w1, w2, pre, e, evs, r.
  unfold file_close, emit. cbn [snd trace fs].
  cbn [app] in Hfs2. rewrite Htr, <- app_assoc.
  repeat split; try reflexivity; try assumption; congruence.
Qed.

Lemma receive_data_returns_none_witness :
  tt = tt
  /\ exists x l w1 w2 pre e evs r,
       open_wb "data.txt" example_world = (Ok "data.txt"%string, w1)
       /\ receive_loop loopback "data.txt" [Datagram (data_segment 1 [x6f; x6b]) peer]
            initial_locals w1 = (Exited x l, [], w2)
       /\ trace (snd (receive_data loopback "data.txt"
                        [Datagram (data_segment 1 [x6f; x6b]) peer] example_world))
          = pre ++ [e; EvFileClose "data.txt"]
       /\ announces x e
       /\ trace w2 = trace w1 ++ evs
       /\ fs (snd (receive_data loopback "data.txt"
                     [Datagram (data_segment 1 [x6f; x6b]) peer] example_world))
            !! "data.txt"%string
          = Some (File (concat (written evs)) r true).
Proof.
  apply (receive_data_returns_none loopback "data.txt"
           [Datagram (data_segment 1 [x6f; x6b]) peer] example_world tt []).
  vm_compute. reflexivity.
Defined.

(** ** The output file *)

(** C10. In read mode [main] hands the one path [args.file] to [send_rrq] and
    to [receive_data]. With a port the socket can address, when the local
    check has passed and the open succeeds,
    the file that was checked is empty from the moment [receive_data] opens
    it: with nothing arrived yet, the client is blocked in its first
    [recvfrom] and the file holds nothing; and for any script, the request
    and the open of that same path come before every receive, and once
    [main] has returned or raised, what the file holds is only what this run
    wrote. *)
Theorem output_file_is_the_requested_file args script w c :
  m args = "rx"%string ->
  0 < p args < 65536 ->
  fs w !! file args = Some (File c true true) ->
  let sa : address := ("127.0.0.1"%string, p args) in
  let opening := [EvSettimeout 2; EvSendto (read_request (file args)) sa;
                  EvPrint (PrintStarting "127.0.0.1" (p args) (file args));
                  EvOpenWb (file args)] in
  (exists w0,
     main args [] w = (Blocked, [], w0)
     /\ trace w0 = trace w ++ opening
     /\ fs w0 !! file args = Some (File [] true true))
  /\ (exists evs,
        trace (snd (main args script w)) = trace w ++ opening ++ evs
        /\ (fst (fst (main args script w)) <> Blocked ->
            fs (snd (main args script w)) !! file args
              = Some (File (concat (written evs)) true true))).
Proof.
  intros Hm _ Hfile sa opening.
  rewrite !(main_rx_checked args _ w c true Hm Hfile). cbv zeta. fold sa.
  unfold receive_data, open_wb. cbn [fs sock_timeout trace]. rewrite Hfile.
  rewrite <- !app_assoc. cbn [app]. fold opening.
  set (w1 := World (<[file args := File [] true true]> (fs w)) (Some 2)
                   (trace w ++ opening)).
  assert (Hfile1 : fs w1 !! file args = Some (File [] true true))
    by apply lookup_insert_eq.
  split.
  - exists w1. auto.
  - destruct (receive_loop sa (file args) script initial_locals w1)
      as [[res rest] w2] eqn:Hloop.
    destruct (receive_loop_appends _ _ _ _ _ _ _ _ _ _ _ Hfile1 Hloop)
      as (evs & Htr & Hfs & _).
    cbn [app trace] in Htr, Hfs.
    destruct res as [x l|e l|l].
    + exists (evs ++ [EvFileClose (file args); EvSocketClose]).
      unfold file_close, emit, with_events. cbn [fst snd fs sock_timeout trace].
      rewrite Htr, Hfs, written_app, <- !app_assoc. cbn [written app].
      rewrite app_nil_r. subst w1. cbn [trace]. rewrite <- !app_assoc. auto.
    + exists (evs ++ [EvFileClose (file args); EvSocketClose]).
      unfold file_close, emit, with_events. cbn [fst snd fs sock_timeout trace].
      rewrite Htr, Hfs, written_app, <- !app_assoc. cbn [written app].
      rewrite app_nil_r. subst w1. cbn [trace]. rewrite <- !app_assoc. auto.
    + exists evs. cbn [fst snd]. rewrite Htr. subst w1. cbn [trace].
      rewrite <- !app_assoc. split; [reflexivity|]. intros H. contradiction.
Qed.

Lemma output_file_is_the_requested_file_witness :
  let args := Namespace "data.txt" "rx" 6969 in
  let script := [Datagram (data_segment 1 [x6f; x6b]) peer] in
  let sa : address := ("127.0.0.1"%string, p args) in
  let opening := [EvSettimeout 2; EvSendto (read_request (file args)) sa;
                  EvPrint (PrintStarting "127.0.0.1" (p args) (file args));
                  EvOpenWb (file args)] in
  (exists w0,
     main args [] example_world = (Blocked, [], w0)
     /\ trace w0 = trace example_world ++ opening
     /\ fs w0 !! file args = Some (File [] true true))
  /\ (exists evs,
        trace (snd (main args script example_world))
          = trace example_world ++ opening ++ evs
        /\ (fst (fst (main args script example_world)) <> Blocked ->
            fs (snd (main args script example_world)) !! file args
              = Some (File (concat (written evs)) true true))).
Proof.
  apply (output_file_is_the_requested_file (Namespace "data.txt" "rx" 6969)
           [Datagram (data_segment 1 [x6f; x6b]) peer] example_world [x68; x69]).
  - reflexivity.
  - cbn [p]. lia.
  - reflexivity.
Defined.

(** ** The loop, pass by pass *)

Lemma iteration_pass sa file a l w :
  pass sa file l w a (fst (iteration sa file a l w)) (snd (iteration sa file a l w)).
Proof.
  case_iteration sa file a l w.
  - destruct (Nat.ltb_spec (length (skipn 4 (firstn 516 data))) 512).
    + unfold with_events. cbn [fst snd fs sock_timeout trace].
      rewrite <- app_assoc. apply pass_last; assumption.
    + apply pass_full; assumption.
  - apply pass_order; assumption.
  - eapply pass_opcode; eassumption.
  - apply pass_short; assumption.
  - destruct (Z.gtb_spec (retries l + 1) max_retries).
    + apply pass_give_up; [assumption|lia].
    + apply pass_retry; assumption.
  - apply pass_blocked; assumption.
Qed.

(** An invariant [I] of the passes that go on, and what follows for the way
    the script ends. *)
Lemma receive_loop_rule sa file (I : locals -> world -> Prop)
    (Q : loop_result -> world -> Prop) :
  (forall l w, I l w -> Q (Awaiting l) w) ->
  (forall a l w r w',
     I l w -> pass sa file l w a r w' ->
     match r with
     | Ok (Continue, l') => I l' w'
     | Ok (Break x, l') => Q (Exited x l') w'
     | Exn e => Q (Raised e l) w'
     | Blocked => Q (Awaiting l) w'
     end) ->
  forall script l w res rest w',
    I l w ->
    receive_loop sa file script l w = (res, rest, w') ->
    Q res w'.
Proof.
  intros Hidle Hstep. induction script as [|a script IH]; intros l w res rest w' HI.
  - intros [= <- <- <-]. apply Hidle, HI.
  - rewrite receive_loop_cons.
    pose proof (Hstep a l w _ _ HI (iteration_pass sa file a l w)) as Hpass.
    destruct (iteration sa file a l w) as [[[[|x] l1]|e|] w1]; cbn [fst snd] in Hpass.
    + apply IH, Hpass.
    + intros [= <- <- <-]. exact Hpass.
    + intros [= <- <- <-]. exact Hpass.
    + intros [= <- <- <-]. exact Hpass.
Qed.

Lemma byte_of_Z_high (a b : byte) :
  byte_of_Z ((256 * Z_of_byte a + Z_of_byte b) / 256) = a.
Proof.
  pose proof (Z_of_byte_range a). pose proof (Z_of_byte_range b).
  replace ((256 * Z_of_byte a + Z_of_byte b) / 256) with (Z_of_byte a)
    by (Z.div_mod_to_equations; lia).
  apply byte_of_Z_of_byte.
Qed.

Lemma byte_of_Z_low (a b : byte) :
  byte_of_Z ((256 * Z_of_byte a + Z_of_byte b) mod 256) = b.
Proof.
  pose proof (Z_of_byte_range a). pose proof (Z_of_byte_range b).
  replace ((256 * Z_of_byte a + Z_of_byte b) mod 256) with (Z_of_byte b)
    by (Z.div_mod_to_equations; lia).
  apply byte_of_Z_of_byte.
Qed.

(** ** Further properties of the transfer engine *)

(** X1. The acknowledgment of an accepted segment goes to the segment's
    source and is the two bytes 00 04 followed by the very two bytes of the
    segment's block field; read back with the loop's own header parser it is
    opcode 4 with the block number just accepted. *)
Theorem ack_echoes_block_field sa file data src l w :
  struct_unpack_HH (firstn 4 data) = Some (3, block_num l) ->
  exists ack,
    sent (trace (snd (iteration sa file (Datagram data src) l w)))
      = sent (trace w) ++ [(ack, src)]
    /\ ack = [x00; x04] ++ firstn 2 (skipn 2 data)
    /\ struct_unpack_HH ack = Some (4, block_num l).
Proof.
  intros Hunpack. pose proof (struct_unpack_HH_range _ _ _ Hunpack) as [_ Hrange].
  exists (ack_of (block_num l)). split; [|split].
  - rewrite (iteration_accept sa file data src l w Hunpack). cbv zeta.
    destruct (_ <? _)%nat; unfold with_events; cbn [snd trace];
      rewrite ?sent_app; cbn [accept_events sent app]; rewrite ?app_nil_r; reflexivity.
  - destruct data as [|a [|b [|c [|d t]]]]; try discriminate.
    cbn [firstn skipn app]. simpl in Hunpack. injection Hunpack as _ Hblock.
    unfold ack_of. rewrite <- Hblock, byte_of_Z_high, byte_of_Z_low. reflexivity.
  - apply struct_unpack_ack_of, Hrange.
Qed.

Lemma ack_echoes_block_field_witness :
  exists ack,
    sent (trace (snd (iteration loopback "data.txt"
                        (Datagram (data_segment 1 [x6f; x6b]) peer)
                        initial_locals example_opened)))
      = sent (trace example_opened) ++ [(ack, peer)]
    /\ ack = [x00; x04] ++ firstn 2 (skipn 2 (data_segment 1 [x6f; x6b]))
    /\ struct_unpack_HH ack = Some (4, block_num initial_locals).
Proof.
  apply (ack_echoes_block_field loopback "data.txt" (data_segment 1 [x6f; x6b]) peer
           initial_locals example_opened).
  reflexivity.
Defined.

(** X2. With a [server_address] whose port the socket can address,
    [send_rrq] returns normally and never touches the file system. What it
    does is decided by the path alone: for a readable regular file it sends
    the one request datagram to [server_address] and prints the starting
    line; for a regular file that cannot be read it prints the permission
    line; for anything else (nothing there, or a directory) it prints the
    does-not-exist line; in these two cases nothing is sent. The file's
    content plays no part. *)
Theorem send_rrq_by_cases sa filename w :
  0 < snd sa < 65536 ->
  exists w',
    send_rrq sa filename w = (Ok tt, w')
    /\ fs w' = fs w
    /\ sock_timeout w' = sock_timeout w
    /\ trace w' =
         trace w ++
         match fs w !! filename with
         | Some (File _ true _) =>
             [EvSendto (read_request filename) sa;
              EvPrint (PrintStarting (fst sa) (snd sa) filename)]
         | Some (File _ false _) => [EvPrint (PrintCannotBeRead filename)]
         | Some Directory | None => [EvPrint (PrintDoesNotExist filename)]
         end.
Proof.
  intros _.
  destruct (fs w !! filename) as [[c [|] wr|]|] eqn:Hfile.
  - rewrite (send_rrq_ok sa filename w c wr Hfile). eexists. split; [reflexivity|]. auto.
  - rewrite (send_rrq_unreadable sa filename w c wr Hfile).
    eexists. split; [reflexivity|]. auto.
  - rewrite send_rrq_not_a_file by (intros ? ? ?; rewrite Hfile; discriminate).
    eexists. split; [reflexivity|]. auto.
  - rewrite send_rrq_not_a_file by (intros ? ? ?; rewrite Hfile; discriminate).
    eexists. split; [reflexivity|]. auto.
Qed.

Lemma send_rrq_by_cases_witness :
  exists w',
    send_rrq loopback "data.txt" example_world = (Ok tt, w')
    /\ fs w' = fs example_world
    /\ sock_timeout w' = sock_timeout example_world
    /\ trace w' =
         trace example_world ++
         match fs example_world !! "data.txt"%string with
         | Some (File _ true _) =>
             [EvSendto (read_request "data.txt") loopback;
              EvPrint (PrintStarting (fst loopback) (snd loopback) "data.txt")]
         | Some (File _ false _) => [EvPrint (PrintCannotBeRead "data.txt")]
         | Some Directory | None => [EvPrint (PrintDoesNotExist "data.txt")]
         end.
Proof.
  apply (send_rrq_by_cases loopback "data.txt" example_world).
  cbn [snd loopback]. lia.
Defined.

(** X3. However the network behaves, the loop started by [receive_data] keeps
    its locals within bounds: whenever it is about to receive, the expected
    block is between 1 and 65536, the retry counter between 0 and 3, and the
    last acknowledgment is that of the block before the expected one (none
    yet when block 1 is expected). It leaves as finished with at least block
    1 accepted and the counter at 0, and for exhausted retries with the
    counter at exactly 4. *)
Theorem receive_loop_keeps_locals_ok sa file script w res rest w' :
  receive_loop sa file script initial_locals w = (res, rest, w') ->
  match res with
  | Exited Finished l =>
      2 <= block_num l <= 65536 /\ retries l = 0
      /\ ack_packet l = Some (ack_of (block_num l - 1))
  | Exited MaxRetriesExceeded l =>
      1 <= block_num l <= 65536 /\ retries l = 4
  | Exited _ l | Raised _ l | Awaiting l => locals_ok l
  end.
Proof.
  apply (receive_loop_rule sa file (fun l _ => locals_ok l)
           (fun res _ =>
              match res with
              | Exited Finished l =>
                  2 <= block_num l <= 65536 /\ retries l = 0
                  /\ ack_packet l = Some (ack_of (block_num l - 1))
              | Exited MaxRetriesExceeded l =>
                  1 <= block_num l <= 65536 /\ retries l = 4
              | Exited _ l | Raised _ l | Awaiting l => locals_ok l
              end)).
  - auto.
  - intros a l w0 r w1 (Hb & Hr & Hack) Hpass. unfold max_retries in *.
    destruct Hpass as [| | |data src Hunpack _|data src Hunpack _| | |];
      try (split; [|split]; assumption); cbn [block_num retries ack_packet].
    + pose proof (struct_unpack_HH_range _ _ _ Hunpack) as [_ Hrange].
      unfold locals_ok, max_retries. cbn [block_num retries ack_packet].
      destruct (Z.eqb_spec (block_num l + 1) 1); [lia|].
      replace (block_num l + 1 - 1) with (block_num l) by lia.
      repeat split; lia.
    + pose proof (struct_unpack_HH_range _ _ _ Hunpack) as [_ Hrange].
      replace (block_num l + 1 - 1) with (block_num l) by lia.
      repeat split; lia.
    + unfold locals_ok, max_retries in *. cbn [block_num retries ack_packet].
      repeat split; try lia. exact Hack.
    + unfold max_retries in *. split; lia.
  - unfold locals_ok, max_retries. cbn. repeat split; lia.
Qed.

Lemma receive_loop_keeps_locals_ok_witness :
  2 <= block_num (Locals 2 0 (Some (ack_of 1))) <= 65536
  /\ retries (Locals 2 0 (Some (ack_of 1))) = 0
  /\ ack_packet (Locals 2 0 (Some (ack_of 1)))
     = Some (ack_of (block_num (Locals 2 0 (Some (ack_of 1))) - 1)).
Proof.
  apply (receive_loop_keeps_locals_ok loopback "data.txt"
           [Datagram (data_segment 1 [x6f; x6b]) peer] example_opened
           (Exited Finished (Locals 2 0 (Some (ack_of 1)))) []
           (snd (receive_loop loopback "data.txt"
                   [Datagram (data_segment 1 [x6f; x6b]) peer]
                   initial_locals example_opened))).
  vm_compute. reflexivity.
Defined.

Lemma pass_keeps_timeout sa file l w a r w' :
  pass sa file l w a r w' -> sock_timeout w' = sock_timeout w.
Proof. intros []; reflexivity. Qed.

Lemma pass_keeps_locals_ok sa file l w a l' w' :
  locals_ok l -> pass sa file l w a (Ok (Continue, l')) w' -> locals_ok l'.
Proof.
  intros (Hb & Hr & Hack) Hpass. unfold locals_ok.
  inversion Hpass as [| | |data src Hunpack _| |t Ht Hle| |]; subst;
    cbn [block_num retries ack_packet]; unfold max_retries in *.
  - pose proof (struct_unpack_HH_range _ _ _ Hunpack) as [_ Hrange].
    destruct (Z.eqb_spec (block_num l + 1) 1); [lia|].
    replace (block_num l + 1 - 1) with (block_num l) by lia.
    repeat split; lia.
  - repeat split; try lia. exact Hack.
Qed.

Lemma passes_left_bounds (l : locals) :
  locals_ok l -> 0 <= passes_left l <= 262143.
Proof.
  intros (Hb & Hr & _). unfold passes_left, max_retries in *. lia.
Qed.

(** X4. On a socket with a timeout the loop cannot go on for ever: started by
    [receive_data] (or from any state it can be in), it is still waiting
    after a script only if the script is used up and no longer than the
    passes the locals left room for, at most 262143 (four per block number up
    to 65535, less one). A longer script always ends the loop, through a
    [break] or an exception. *)
Theorem receive_loop_passes_bounded sa file (script : list arrival) :
  forall l w t l' rest w',
    sock_timeout w = Some t ->
    locals_ok l ->
    receive_loop sa file script l w = (Awaiting l', rest, w') ->
    rest = []
    /\ locals_ok l'
    /\ Z.of_nat (length script) + passes_left l' <= passes_left l
    /\ Z.of_nat (length script) <= 262143.
Proof.
  assert (Hmain : forall l w t l' rest w',
    sock_timeout w = Some t -> locals_ok l ->
    receive_loop sa file script l w = (Awaiting l', rest, w') ->
    rest = [] /\ locals_ok l'
    /\ Z.of_nat (length script) + passes_left l' <= passes_left l).
  { induction script as [|a script IH]; intros l w t l' rest w' Ht Hok.
    - intros [= <- <- <-]. cbn [length]. split; [reflexivity|]. split; [exact Hok|lia].
    - rewrite receive_loop_cons.
      pose proof (iteration_pass sa file a l w) as Hpass.
      destruct (iteration sa file a l w) as [[[[|x] l1]|e|] w1];
        cbn [fst snd] in Hpass; try discriminate.
      + intros Hloop.
        pose proof (pass_keeps_locals_ok _ _ _ _ _ _ _ Hok Hpass) as Hok1.
        pose proof (pass_keeps_timeout _ _ _ _ _ _ _ Hpass) as Ht1.
        rewrite Ht in Ht1.
        destruct (IH l1 w1 t l' rest w' Ht1 Hok1 Hloop) as (Hrest & Hok' & Hlen).
        split; [exact Hrest|]. split; [exact Hok'|]. rewrite length_cons.
        assert (passes_left l1 + 1 <= passes_left l); [|lia].
        destruct Hok as (Hb & Hr & _). unfold passes_left, max_retries in *.
        inversion Hpass; subst; cbn [block_num retries]; lia.
      + inversion Hpass; subst. congruence. }
  intros l w t l' rest w' Ht Hok Hloop.
  destruct (Hmain l w t l' rest w' Ht Hok Hloop) as (Hrest & Hok' & Hlen).
  split; [exact Hrest|]. split; [exact Hok'|]. split; [exact Hlen|].
  pose proof (passes_left_bounds l Hok). pose proof (passes_left_bounds l' Hok'). lia.
Qed.

Lemma receive_loop_passes_bounded_witness :
  ([] : list arrival) = []
     /\ locals_ok (Locals 2 3 (Some (ack_of 1)))
     /\ Z.of_nat (length [Datagram (data_segment 1 full_payload) peer;
                          Silence; Silence; Silence])
        + passes_left (Locals 2 3 (Some (ack_of 1))) <= passes_left initial_locals
     /\ Z.of_nat (length [Datagram (data_segment 1 full_payload) peer;
                          Silence; Silence; Silence]) <= 262143.
Proof.
  apply (receive_loop_passes_bounded loopback "data.txt"
           [Datagram (data_segment 1 full_payload) peer; Silence; Silence; Silence]
           initial_locals example_opened 2 (Locals 2 3 (Some (ack_of 1))) []
           (snd (receive_loop loopback "data.txt"
                   [Datagram (data_segment 1 full_payload) peer;
                    Silence; Silence; Silence]
                   initial_locals example_opened))).
  - reflexivity.
  - unfold locals_ok, max_retries. cbn. repeat split; lia.
  - vm_compute. reflexivity.
Defined.

Lemma payload_at_most_512 (data : bytes) :
  (length (skipn 4 (firstn 516 data)) <= 512)%nat.
Proof.
  rewrite length_skipn, length_firstn. lia.
Qed.

(** X5. What is handed to [file.write] grows by whole blocks. Whenever the
    loop started by [receive_data] is waiting, and when it is left through
    an error [break] or an exception, the payloads written so far make up
    exactly 512 bytes for every block before the expected one; after a
    finished transfer they make up the full blocks and a last one shorter
    than 512 bytes. They never make up more than 65535 blocks, 33553920
    bytes. *)
Theorem written_bytes_grow_by_blocks sa file script w res rest w' :
  receive_loop sa file script initial_locals w = (res, rest, w') ->
  exists evs,
    trace w' = trace w ++ evs
    /\ Z.of_nat (length (concat (written evs))) <= 33553920
    /\ match res with
       | Exited Finished l =>
           512 * (block_num l - 2) <= Z.of_nat (length (concat (written evs)))
             < 512 * (block_num l - 1)
       | Exited _ l | Raised _ l | Awaiting l =>
           Z.of_nat (length (concat (written evs))) = 512 * (block_num l - 1)
       end.
Proof.
  apply (receive_loop_rule sa file
           (fun l w0 =>
              locals_ok l
              /\ exists evs,
                   trace w0 = trace w ++ evs
                   /\ Z.of_nat (length (concat (written evs)))
                      = 512 * (block_num l - 1))
           (fun res w0 =>
              exists evs,
                trace w0 = trace w ++ evs
                /\ Z.of_nat (length (concat (written evs))) <= 33553920
                /\ match res with
                   | Exited Finished l =>
                       512 * (block_num l - 2)
                         <= Z.of_nat (length (concat (written evs)))
                         < 512 * (block_num l - 1)
                   | Exited _ l | Raised _ l | Awaiting l =>
                       Z.of_nat (length (concat (written evs)))
                         = 512 * (block_num l - 1)
                   end)).
  - intros l w0 ((Hb & _) & evs & Htr & Hlen). exists evs.
    split; [exact Htr|]. split; [lia|exact Hlen].
  - intros a l w0 res0 w1 (Hok & evs & Htr & Hlen) Hpass.
    pose proof Hok as (Hb & _).
    assert (Hsame : forall more,
              written more = [] ->
              trace w0 ++ more = trace w ++ (evs ++ more)
              /\ Z.of_nat (length (concat (written (evs ++ more))))
                 = 512 * (block_num l - 1)).
    { intros more Hmore. rewrite Htr, <- app_assoc, written_app, Hmore, app_nil_r.
      auto. }
    assert (Hnew : forall data src,
              trace w0 ++ accept_events file (block_num l) (firstn 516 data) src
                = trace w ++ (evs ++ accept_events file (block_num l)
                                       (firstn 516 data) src)
              /\ Z.of_nat (length (concat (written
                     (evs ++ accept_events file (block_num l) (firstn 516 data) src))))
                 = 512 * (block_num l - 1)
                   + Z.of_nat (length (skipn 4 (firstn 516 data)))).
    { intros data src. rewrite Htr, <- app_assoc. split; [reflexivity|].
      rewrite written_app. cbn [accept_events written].
      rewrite concat_app, length_app. cbn [concat]. rewrite app_nil_r. lia. }
    destruct Hpass as [data src _|data src opcode block _ _|data src block _ _
                       |data src Hunpack Hfull|data src Hunpack Hshort
                       |t Ht Hle|t Ht Hgt|Hnone].
    + destruct (Hsame [EvRecv (firstn 516 data) src] eq_refl) as [Htr' Hlen'].
      eexists. unfold with_events. cbn [trace].
      split; [exact Htr'|]. split; [lia|exact Hlen'].
    + destruct (Hsame [EvRecv (firstn 516 data) src;
                       EvLog ERROR (MsgUnexpectedOpcode opcode)] eq_refl)
        as [Htr' Hlen'].
      eexists. unfold with_events. cbn [trace].
      split; [exact Htr'|]. split; [lia|exact Hlen'].
    + destruct (Hsame [EvRecv (firstn 516 data) src;
                       EvLog ERROR (MsgOutOfOrder block (block_num l))] eq_refl)
        as [Htr' Hlen'].
      eexists. unfold with_events. cbn [trace].
      split; [exact Htr'|]. split; [lia|exact Hlen'].
    + split.
      * exact (pass_keeps_locals_ok _ _ _ _ _ _ _ Hok
                 (pass_full sa file l w0 data src Hunpack Hfull)).
      * destruct (Hnew data src) as [Htr' Hlen'].
        eexists. cbn [trace block_num]. split; [exact Htr'|].
        pose proof (payload_at_most_512 data). lia.
    + pose proof (struct_unpack_HH_range _ _ _ Hunpack) as [_ Hrange].
      destruct (Hnew data src) as [Htr' Hlen'].
      exists ((evs ++ accept_events file (block_num l) (firstn 516 data) src)
              ++ [EvLog INFO MsgFinished]).
      cbn [trace block_num].
      split; [rewrite app_assoc, Htr', <- app_assoc; reflexivity|].
      rewrite written_app. cbn [written]. rewrite app_nil_r. lia.
    + split.
      * exact (pass_keeps_locals_ok _ _ _ _ _ _ _ Hok (pass_retry sa file l w0 t Ht Hle)).
      * destruct (Hsame ([EvTimedOut t;
                          EvLog WARNING (MsgRetrying (retries l + 1) max_retries)]
                         ++ match truthy (ack_packet l) with
                            | Some ack => [EvSendto ack sa]
                            | None => []
                            end))
          as [Htr' Hlen']; [destruct (truthy _); reflexivity|].
        eexists. unfold with_events. cbn [trace block_num].
        split; [exact Htr'|exact Hlen'].
    + destruct (Hsame [EvTimedOut t; EvLog ERROR MsgMaxRetries] eq_refl)
        as [Htr' Hlen'].
      eexists. unfold with_events. cbn [trace block_num].
      split; [exact Htr'|]. split; [lia|exact Hlen'].
    + exists evs. split; [exact Htr|]. split; [lia|exact Hlen].
  - split.
    + unfold locals_ok, max_retries. cbn. repeat split; lia.
    + exists []. rewrite app_nil_r. auto.
Qed.

Lemma written_bytes_grow_by_blocks_witness :
  exists evs,
    trace (snd (receive_loop loopback "data.txt"
                  [Datagram (data_segment 1 full_payload) peer;
                   Datagram (data_segment 2 [x6f; x6b]) peer]
                  initial_locals example_opened))
      = trace example_opened ++ evs
    /\ Z.of_nat (length (concat (written evs))) <= 33553920
    /\ 512 * (block_num (Locals 3 0 (Some (ack_of 2))) - 2)
         <= Z.of_nat (length (concat (written evs)))
         < 512 * (block_num (Locals 3 0 (Some (ack_of 2))) - 1).
Proof.
  apply (written_bytes_grow_by_blocks loopback "data.txt"
           [Datagram (data_segment 1 full_payload) peer;
            Datagram (data_segment 2 [x6f; x6b]) peer]
           example_opened
           (Exited Finished (Locals 3 0 (Some (ack_of 2)))) []).
  vm_compute. reflexivity.
Defined.

(** X6. [recvfrom(516)] hands over at most 516 bytes: of a datagram that
    long or longer, with the expected block number, exactly the 512 bytes
    after the header are written, whatever follows them is dropped, and the
    segment counts as a full one (the loop goes on). *)
Theorem oversized_datagram_is_cut sa file data src l w :
  struct_unpack_HH (firstn 4 data) = Some (3, block_num l) ->
  (516 <= length data)%nat ->
  exists l' w',
    iteration sa file (Datagram data src) l w = (Ok (Continue, l'), w')
    /\ written (trace w') = written (trace w) ++ [firstn 512 (skipn 4 data)]
    /\ length (firstn 512 (skipn 4 data)) = 512%nat.
Proof.
  intros Hunpack Hlong.
  assert (Hcut : skipn 4 (firstn 516 data) = firstn 512 (skipn 4 data))
    by apply (skipn_firstn_comm 4 516 data).
  assert (Hlen : length (firstn 512 (skipn 4 data)) = 512%nat)
    by (rewrite length_firstn, length_skipn; lia).
  rewrite (iteration_accept sa file data src l w Hunpack). cbv zeta.
  rewrite Hcut, Hlen. change (512 <? 512)%nat with false.
  eexists _, _. split; [reflexivity|]. split; [|reflexivity].
  cbn [trace]. rewrite written_app. cbn [accept_events written].
  rewrite Hcut. reflexivity.
Qed.

Lemma oversized_datagram_is_cut_witness :
  exists l' w',
    iteration loopback "data.txt"
      (Datagram (data_segment 1 (full_payload ++ [x21; x21])) peer)
      initial_locals example_opened = (Ok (Continue, l'), w')
    /\ written (trace w') =
         written (trace example_opened)
         ++ [firstn 512 (skipn 4 (data_segment 1 (full_payload ++ [x21; x21])))]
    /\ length (firstn 512 (skipn 4 (data_segment 1 (full_payload ++ [x21; x21]))))
       = 512%nat.
Proof.
  apply (oversized_datagram_is_cut loopback "data.txt"
           (data_segment 1 (full_payload ++ [x21; x21])) peer
           initial_locals example_opened).
  - reflexivity.
  - vm_compute. lia.
Defined.

(** One timeout with retries to spare: the counter goes up and the last
    acknowledgment, if there is one, is sent again to [server_address]. *)
Lemma receive_loop_silence_again sa file rest l w t :
  sock_timeout w = Some t ->
  retries l + 1 <= max_retries ->
  receive_loop sa file (Silence :: rest) l w =
    receive_loop sa file rest (Locals (block_num l) (retries l + 1) (ack_packet l))
      (with_events w
         ([EvTimedOut t; EvLog WARNING (MsgRetrying (retries l + 1) max_retries)]
          ++ match truthy (ack_packet l) with
             | Some ack => [EvSendto ack sa]
             | None => []
             end)).
Proof.
  intros Ht Hle. rewrite receive_loop_cons, (iteration_silence sa file l w t Ht).
  cbv zeta. destruct (Z.gtb_spec (retries l + 1) max_retries) as [?|_]; [lia|].
  reflexivity.
Qed.

(** X7. Silence after an acknowledgment: from a state with the retry counter
    at 0 and a last acknowledgment, four timeouts in a row end the loop for
    exhausted retries, and in between the last acknowledgment has been sent
    again exactly three times, each time to [server_address]. *)
Theorem silence_after_ack_sends_three_probes sa file rest l w t ack :
  sock_timeout w = Some t ->
  retries l = 0 ->
  truthy (ack_packet l) = Some ack ->
  exists w',
    receive_loop sa file (Silence :: Silence :: Silence :: Silence :: rest) l w
      = (Exited MaxRetriesExceeded (Locals (block_num l) 4 (ack_packet l)), rest, w')
    /\ sent (trace w') = sent (trace w) ++ [(ack, sa); (ack, sa); (ack, sa)]
    /\ written (trace w') = written (trace w)
    /\ fs w' = fs w.
Proof.
  intros Ht Hr Hack.
  do 3 (rewrite (receive_loop_silence_again sa file _ _ _ t)
          by (try exact Ht; cbn [retries]; rewrite Hr; unfold max_retries; lia);
        cbn [retries block_num ack_packet]; try rewrite with_events_app).
  rewrite (receive_loop_silence_give_up sa file _ _ _ t)
    by (try exact Ht; cbn [retries]; rewrite Hr; unfold max_retries; lia).
  rewrite with_events_app. cbn [retries block_num ack_packet]. rewrite Hack, Hr.
  eexists. split; [reflexivity|].
  unfold with_events. cbn [trace fs].
  rewrite sent_app, written_app. cbn [sent written app]. rewrite app_nil_r. auto.
Qed.

Lemma silence_after_ack_sends_three_probes_witness :
  exists w',
    receive_loop loopback "data.txt" [Silence; Silence; Silence; Silence]
      (Locals 2 0 (Some (ack_of 1))) example_opened
      = (Exited MaxRetriesExceeded
           (Locals (block_num (Locals 2 0 (Some (ack_of 1)))) 4
                   (ack_packet (Locals 2 0 (Some (ack_of 1))))), [], w')
    /\ sent (trace w') =
         sent (trace example_opened)
         ++ [(ack_of 1, loopback); (ack_of 1, loopback); (ack_of 1, loopback)]
    /\ written (trace w') = written (trace example_opened)
    /\ fs w' = fs example_opened.
Proof.
  apply (silence_after_ack_sends_three_probes loopback "data.txt" []
           (Locals 2 0 (Some (ack_of 1))) example_opened 2 (ack_of 1)).
  - reflexivity.
  - reflexivity.
  - reflexivity.
Defined.

Lemma receive_loop_silences sa file rest t (k : nat) :
  forall l w,
    sock_timeout w = Some t ->
    retries l + Z.of_nat k <= max_retries ->
    exists w',
      receive_loop sa file (replicate k Silence ++ rest) l w =
        receive_loop sa file rest
          (Locals (block_num l) (retries l + Z.of_nat k) (ack_packet l)) w'
      /\ sock_timeout w' = Some t
      /\ fs w' = fs w
      /\ written (trace w') = written (trace w).
Proof.
  induction k as [|k IH]; intros l w Ht Hle.
  - exists w. cbn [replicate app]. rewrite Z.add_0_r. destruct l; auto.
  - cbn [replicate app].
    rewrite (receive_loop_silence_again sa file _ l w t Ht) by lia.
    edestruct (IH (Locals (block_num l) (retries l + 1) (ack_packet l))) as
      (w' & Hloop & Ht' & Hfs & Hwr); [..|exists w'; rewrite Hloop].
    + unfold with_events. cbn [sock_timeout]. exact Ht.
    + cbn [retries]. lia.
    + cbn [block_num retries ack_packet] in *.
      replace (retries l + 1 + Z.of_nat k) with (retries l + Z.of_nat (S k)) by lia.
      split; [reflexivity|]. split; [exact Ht'|].
      unfold with_events in *. cbn [fs trace] in *.
      rewrite Hfs, Hwr, written_app.
      split; [reflexivity|].
      destruct (truthy _); cbn [written app]; rewrite app_nil_r; reflexivity.
Qed.

(** X8. Timeouts are counted in a row, not in all: after up to three timeouts
    a full segment with the expected block number is accepted and puts the
    counter back to 0, so the locals are those of a transfer that never
    waited, and the file gets the payload once. *)
Theorem accepted_segment_resets_retries sa file data src rest l w t (k : nat) :
  sock_timeout w = Some t ->
  retries l = 0 ->
  (k <= 3)%nat ->
  struct_unpack_HH (firstn 4 data) = Some (3, block_num l) ->
  (512 <= length (skipn 4 (firstn 516 data)))%nat ->
  exists w',
    receive_loop sa file (replicate k Silence ++ Datagram data src :: rest) l w
      = receive_loop sa file rest
          (Locals (block_num l + 1) 0 (Some (ack_of (block_num l)))) w'
    /\ written (trace w') = written (trace w) ++ [skipn 4 (firstn 516 data)].
Proof.
  intros Ht Hr Hk Hunpack Hfull.
  destruct (receive_loop_silences sa file (Datagram data src :: rest) t k l w Ht)
    as (w1 & Hloop & Ht1 & Hfs1 & Hwr1); [rewrite Hr; unfold max_retries; lia|].
  rewrite Hloop, receive_loop_cons.
  rewrite (iteration_accept sa file data src _ w1) by exact Hunpack.
  cbv zeta. cbn [block_num].
  destruct (Nat.ltb_spec (length (skipn 4 (firstn 516 data))) 512) as [?|_]; [lia|].
  eexists. split; [reflexivity|]. cbn [trace].
  rewrite written_app, Hwr1. reflexivity.
Qed.

Lemma accepted_segment_resets_retries_witness :
  exists w',
    receive_loop loopback "data.txt"
      (replicate 3 Silence ++ Datagram (data_segment 1 full_payload) peer :: [])
      initial_locals example_opened
      = receive_loop loopback "data.txt" []
          (Locals (block_num initial_locals + 1) 0
                  (Some (ack_of (block_num initial_locals)))) w'
    /\ written (trace w') =
         written (trace example_opened)
         ++ [skipn 4 (firstn 516 (data_segment 1 full_payload))].
Proof.
  apply (accepted_segment_resets_retries loopback "data.txt"
           (data_segment 1 full_payload) peer [] initial_locals example_opened 2 3).
  - reflexivity.
  - reflexivity.
  - lia.
  - reflexivity.
  - vm_compute. lia.
Defined.

(** X9. Every datagram the loop sends is a four-byte acknowledgment of a
    block it has accepted: some [ack_of k] with k from 1 up to, and not
    including, the block number expected at the end. *)
Theorem receive_loop_sends_only_acks sa file script w res rest w' :
  receive_loop sa file script initial_locals w = (res, rest, w') ->
  exists evs,
    trace w' = trace w ++ evs
    /\ Forall (fun s =>
                 exists k,
                   1 <= k < match res with
                            | Exited _ l | Raised _ l | Awaiting l => block_num l
                            end
                   /\ k <= 65535
                   /\ fst s = ack_of k)
              (sent evs).
Proof.
  set (acks := fun (l : locals) (w0 : world) =>
         exists evs,
           trace w0 = trace w ++ evs
           /\ Forall (fun s => exists k,
                         1 <= k < block_num l /\ k <= 65535 /\ fst s = ack_of k)
                     (sent evs)).
  intros Hloop.
  enough (Hq : acks match res with Exited _ l | Raised _ l | Awaiting l => l end w')
    by (destruct res; exact Hq).
  revert Hloop.
  apply (receive_loop_rule sa file
           (fun l w0 => locals_ok l /\ acks l w0)
           (fun res w0 =>
              acks match res with Exited _ l | Raised _ l | Awaiting l => l end w0)).
  - intros l w0 [_ H]. exact H.
  - intros a l w0 res0 w1 (Hok & evs & Htr & Hall) Hpass.
    pose proof Hok as (Hb & _ & Hack).
    assert (Hsame : forall more,
              sent more = [] ->
              acks l (with_events w0 more)).
    { intros more Hmore. exists (evs ++ more). unfold with_events. cbn [trace].
      rewrite Htr, <- app_assoc, sent_app, Hmore, app_nil_r. auto. }
    assert (Hnew : forall data src,
              struct_unpack_HH (firstn 4 data) = Some (3, block_num l) ->
              acks (Locals (block_num l + 1) 0 (Some (ack_of (block_num l))))
                   (World (written_fs w0 file (skipn 4 (firstn 516 data)))
                          (sock_timeout w0)
                          (trace w0 ++ accept_events file (block_num l)
                                         (firstn 516 data) src))).
    { intros data src Hunpack.
      pose proof (struct_unpack_HH_range _ _ _ Hunpack) as [_ Hrange].
      exists (evs ++ accept_events file (block_num l) (firstn 516 data) src).
      cbn [trace block_num]. rewrite Htr, <- app_assoc. split; [reflexivity|].
      rewrite sent_app. cbn [accept_events sent]. apply Forall_app. split.
      - eapply Forall_impl; [exact Hall|]. intros s (k & Hk & Hk' & Hs).
        exists k. repeat split; try assumption; lia.
      - constructor; [|constructor]. exists (block_num l). cbn [fst].
        repeat split; lia. }
    destruct Hpass as [| | |data src Hunpack Hfull|data src Hunpack Hshort
                       |t Ht Hle| |]; try (apply Hsame; reflexivity).
    + split.
      * exact (pass_keeps_locals_ok _ _ _ _ _ _ _ Hok
                 (pass_full sa file l w0 data src Hunpack Hfull)).
      * exact (Hnew data src Hunpack).
    + destruct (Hnew data src Hunpack) as (evs' & Htr' & Hall').
      exists (evs' ++ [EvLog INFO MsgFinished]). cbn [trace block_num] in *.
      rewrite app_assoc, Htr', <- app_assoc. split; [reflexivity|].
      rewrite sent_app. cbn [sent]. rewrite app_nil_r. exact Hall'.
    + split.
      * exact (pass_keeps_locals_ok _ _ _ _ _ _ _ Hok (pass_retry sa file l w0 t Ht Hle)).
      * exists (evs ++ [EvTimedOut t;
                        EvLog WARNING (MsgRetrying (retries l + 1) max_retries)]
                     ++ match truthy (ack_packet l) with
                        | Some ack => [EvSendto ack sa]
                        | None => []
                        end).
        unfold with_events. cbn [trace block_num].
        rewrite Htr, <- app_assoc. split; [reflexivity|].
        rewrite sent_app. apply Forall_app. split; [exact Hall|].
        rewrite Hack. destruct (Z.eqb_spec (block_num l) 1) as [|Hne].
        -- constructor.
        -- cbn. constructor; [|constructor]. exists (block_num l - 1). cbn [fst].
           repeat split; lia.
    + exists evs. split; [exact Htr|exact Hall].
  - split.
    + unfold locals_ok, max_retries. cbn. repeat split; lia.
    + exists []. rewrite app_nil_r. split; [reflexivity|constructor].
Qed.

Lemma receive_loop_sends_only_acks_witness :
  exists evs,
    trace (snd (receive_loop loopback "data.txt"
                  [Datagram (data_segment 1 full_payload) peer; Silence]
                  initial_locals example_opened))
      = trace example_opened ++ evs
    /\ Forall (fun s =>
                 exists k,
                   1 <= k < block_num (Locals 2 1 (Some (ack_of 1)))
                   /\ k <= 65535
                   /\ fst s = ack_of k)
              (sent evs).
Proof.
  apply (receive_loop_sends_only_acks loopback "data.txt"
           [Datagram (data_segment 1 full_payload) peer; Silence] example_opened
           (Awaiting (Locals 2 1 (Some (ack_of 1)))) []).
  vm_compute. reflexivity.
Defined.

(** ** Further properties of [receive_data] and [main] *)

(** X10. The [with] block: whenever [receive_data] returns or raises, either
    the output file was opened and closing it is the last thing traced, or
    the open itself raised, [receive_data] raises that same exception and
    nothing else happened: no arrival was consumed and the world is as it
    was. *)
Theorem receive_data_closes_the_file sa filename script w r rest w' :
  receive_data sa filename script w = (r, rest, w') ->
  r <> Blocked ->
  (exists w1 evs,
     open_wb filename w = (Ok filename, w1)
     /\ trace w' = trace w1 ++ evs ++ [EvFileClose filename])
  \/ (exists e,
        open_wb filename w = (Exn e, w)
        /\ r = Exn e /\ rest = script /\ w' = w).
Proof.
  intros Hrun Hr. unfold receive_data in Hrun.
  destruct (open_wb filename w) as [[handle|e|] w1] eqn:Hopen.
  - left. destruct (open_wb_ok _ _ _ _ Hopen) as (-> & [rd Hfs1] & _ & _).
    assert (Hfile1 : fs w1 !! filename = Some (File [] rd true))
      by (rewrite Hfs1; apply lookup_insert_eq).
    destruct (receive_loop sa filename script initial_locals w1)
      as [[res rest'] w2] eqn:Hloop.
    destruct (receive_loop_appends _ _ _ _ _ _ _ _ _ _ _ Hfile1 Hloop)
      as (evs & Htr & _).
    exists w1, evs. split; [reflexivity|].
    destruct res; injection Hrun as <- <- <-; try contradiction;
      unfold file_close, emit; cbn [snd trace]; rewrite Htr, <- app_assoc; reflexivity.
  - right. injection Hrun as <- <- <-. exists e.
    unfold open_wb in Hopen.
    destruct (fs w !! filename) as [[c rd [|]|]|]; try discriminate;
      injection Hopen as <- <-; auto 6.
  - unfold open_wb in Hopen.
    destruct (fs w !! filename) as [[c rd [|]|]|]; discriminate.
Qed.

Lemma receive_data_closes_the_file_witness :
  (exists w1 evs,
     open_wb "data.txt" example_world = (Ok "data.txt"%string, w1)
     /\ trace (snd (receive_data loopback "data.txt" [Datagram [x00; x03; x00] peer]
                      example_world))
        = trace w1 ++ evs ++ [EvFileClose "data.txt"])
  \/ (exists e,
        open_wb "data.txt" example_world = (Exn e, example_world)
        /\ (Exn StructError : result unit) = Exn e
        /\ ([] : list arrival) = [Datagram [x00; x03; x00] peer]
        /\ snd (receive_data loopback "data.txt" [Datagram [x00; x03; x00] peer]
                  example_world) = example_world).
Proof.
  apply (receive_data_closes_the_file loopback "data.txt"
           [Datagram [x00; x03; x00] peer] example_world (Exn StructError) []).
  - vm_compute. reflexivity.
  - discriminate.
Defined.

(** X11. The [finally] of [main]: whenever [main] returns or raises, closing
    the socket is the last thing traced, whatever the arguments, the files
    and the network did. *)
Theorem main_closes_the_socket args script w r rest w' :
  main args script w = (r, rest, w') ->
  r <> Blocked ->
  exists pre, trace w' = pre ++ [EvSocketClose].
Proof.
  unfold main. cbv zeta.
  destruct (if String.eqb (m args) "rx" then _ else _) as [[r0 rest0] w3].
  destruct r0; intros [= <- <- <-] Hr; try contradiction;
    unfold socket_close, emit; cbn [snd trace]; eauto.
Qed.

Lemma main_closes_the_socket_witness :
  exists pre,
    trace (snd (main (Namespace "data.txt" "tx" 6969) [Silence] example_world))
      = pre ++ [EvSocketClose].
Proof.
  apply (main_closes_the_socket (Namespace "data.txt" "tx" 6969) [Silence]
           example_world (Ok tt) [Silence]).
  - vm_compute. reflexivity.
  - discriminate.
Defined.

(** X12. Any mode other than exactly [rx]: [main] prints the unsupported-mode
    line and does nothing else before it closes the socket: no file is
    looked at or opened, nothing is sent or received. *)
Theorem main_unsupported_mode args script w :
  m args <> "rx"%string ->
  main args script w =
    (Ok tt, script,
     World (fs w) (Some 2)
           (trace w ++ [EvSettimeout 2; EvPrint PrintUnsupportedMode; EvSocketClose])).
Proof.
  intros Hm. unfold main. cbv zeta.
  destruct (String.eqb_spec (m args) "rx") as [?|_]; [contradiction|].
  unfold print, socket_close, settimeout, socket_socket, emit.
  cbn [snd fst fs sock_timeout trace]. rewrite <- !app_assoc. reflexivity.
Qed.

Lemma main_unsupported_mode_witness :
  main (Namespace "data.txt" "RX" 6969) [Silence] example_world =
    (Ok tt, [Silence],
     World (fs example_world) (Some 2)
           (trace example_world
            ++ [EvSettimeout 2; EvPrint PrintUnsupportedMode; EvSocketClose])).
Proof.
  apply (main_unsupported_mode (Namespace "data.txt" "RX" 6969) [Silence] example_world).
  discriminate.
Defined.

(** X13. A file that can be read but not written, and a port the socket can
    address: the local check passes and
    the read request goes out, then opening the file for writing raises and
    [main] ends with that exception after closing the socket; nothing is
    received and the file is left as it was. *)
Theorem main_on_read_only_file args script w c :
  m args = "rx"%string ->
  0 < p args < 65536 ->
  fs w !! file args = Some (File c true false) ->
  main args script w =
    (Exn PermissionError, script,
     World (fs w) (Some 2)
           (trace w ++ [EvSettimeout 2;
                        EvSendto (read_request (file args))
                                 ("127.0.0.1"%string, p args);
                        EvPrint (PrintStarting "127.0.0.1" (p args) (file args));
                        EvSocketClose])).
Proof.
  intros Hm _ Hfile. rewrite (main_rx_checked args script w c false Hm Hfile). cbv zeta.
  unfold receive_data, open_wb. cbn [fs sock_timeout trace]. rewrite Hfile.
  unfold with_events. cbn [fs sock_timeout trace]. rewrite <- app_assoc. reflexivity.
Qed.

Lemma main_on_read_only_file_witness :
  let w := World (<["data.txt"%string := File [x68; x69] true false]> ∅) None [] in
  let args := Namespace "data.txt" "rx" 6969 in
  main args [Silence] w =
    (Exn PermissionError, [Silence],
     World (fs w) (Some 2)
           (trace w ++ [EvSettimeout 2;
                        EvSendto (read_request (file args))
                                 ("127.0.0.1"%string, p args);
                        EvPrint (PrintStarting "127.0.0.1" (p args) (file args));
                        EvSocketClose])).
Proof.
  apply (main_on_read_only_file (Namespace "data.txt" "rx" 6969) [Silence]
           (World (<["data.txt"%string := File [x68; x69] true false]> ∅) None [])
           [x68; x69]).
  - reflexivity.
  - cbn [p]. lia.
  - reflexivity.
Defined.

(** X14. A path that names a directory: [send_rrq] reports that the file does
    not exist and sends nothing, and [main], going on, ends with the
    exception of opening a directory for writing, after closing the socket;
    nothing is received. *)
Theorem main_on_directory args script w :
  m args = "rx"%string ->
  fs w !! file args = Some Directory ->
  main args script w =
    (Exn IsADirectoryError, script,
     World (fs w) (Some 2)
           (trace w ++ [EvSettimeout 2; EvPrint (PrintDoesNotExist (file args));
                        EvSocketClose])).
Proof.
  intros Hm Hfile.
  rewrite (main_rx_not_a_file args script w Hm)
    by (intros ? ? ?; rewrite Hfile; discriminate).
  cbv zeta. unfold receive_data, open_wb. cbn [fs sock_timeout trace]. rewrite Hfile.
  unfold with_events. cbn [fs sock_timeout trace]. rewrite <- app_assoc. reflexivity.
Qed.

Lemma main_on_directory_witness :
  let w := World (<["incoming"%string := Directory]> ∅) None [] in
  let args := Namespace "incoming" "rx" 6969 in
  main args [Silence] w =
    (Exn IsADirectoryError, [Silence],
     World (fs w) (Some 2)
           (trace w ++ [EvSettimeout 2; EvPrint (PrintDoesNotExist (file args));
                        EvSocketClose])).
Proof.
  apply (main_on_directory (Namespace "incoming" "rx" 6969) [Silence]
           (World (<["incoming"%string := Directory]> ∅) None [])).
  - reflexivity.
  - reflexivity.
Defined.

(** ** The sample file *)

Lemma string_length_append (s1 s2 : string) :
  String.length (s1 ++ s2)%string = (String.length s1 + String.length s2)%nat.
Proof.
  induction s1 as [|a s1 IH]; simpl; [reflexivity|]. rewrite IH. reflexivity.
Qed.

Lemma string_length_concat_cons (x : string) (xs : list string) :
  String.length (String.concat "" (x :: xs))
    = (String.length x + String.length (String.concat "" xs))%nat.
Proof.
  destruct xs as [|y ys].
  - simpl. lia.
  - change (String.concat "" (x :: y :: ys))
      with (x ++ "" ++ String.concat "" (y :: ys))%string.
    rewrite !string_length_append. reflexivity.
Qed.

Lemma str_times_A_length (k : Z) :
  String.length (str_times "A" k) = Z.to_nat k.
Proof.
  unfold str_times. induction (Z.to_nat k) as [|n IH]; [reflexivity|].
  cbn [replicate]. rewrite string_length_concat_cons, IH. reflexivity.
Qed.

(** X15. Each block the generator writes has as many characters as the
    larger of the block size and its own header: the header is padded with
    [A]s up to the block size when it fits, and written whole, without
    padding and without being cut, when it does not. *)
Theorem gen_block_length (block_size i : Z) :
  Z.of_nat (String.length (gen_block block_size i))
    = Z.max block_size (Z.of_nat (String.length (block_header i))).
Proof.
  unfold gen_block. rewrite string_length_append, str_times_A_length. lia.
Qed.

Lemma gen_blocks_length (block_size : Z) (l : list Z) :
  (forall i, i ∈ l -> Z.of_nat (String.length (block_header i)) <= block_size) ->
  Z.of_nat (String.length (String.concat "" (map (gen_block block_size) l)))
    = Z.of_nat (length l) * block_size.
Proof.
  induction l as [|i l IH]; intros Hfit; [reflexivity|].
  cbn [map]. rewrite string_length_concat_cons, Nat2Z.inj_add, gen_block_length, IH.
  - assert (Z.of_nat (String.length (block_header i)) <= block_size)
      by (apply Hfit; left).
    rewrite length_cons. lia.
  - intros j Hj. apply Hfit. right. exact Hj.
Qed.

(** X16. When every header fits into a block, the generated content has
    exactly [num_blocks * block_size] characters, so the blocks of the file
    sit at multiples of the block size; with the script's own constants, 5
    blocks of 512, the file has 2560 characters. *)
Theorem gen_content_length (block_size num_blocks : Z) :
  0 <= num_blocks ->
  (forall i, 0 <= i < num_blocks ->
             Z.of_nat (String.length (block_header i)) <= block_size) ->
  Z.of_nat (String.length (gen_content block_size num_blocks))
    = num_blocks * block_size.
Proof.
  intros Hn Hfit. unfold gen_content. rewrite gen_blocks_length.
  - rewrite length_seqZ, Z2Nat.id by lia. reflexivity.
  - intros i Hi. apply elem_of_seqZ in Hi. apply Hfit. lia.
Qed.

Lemma gen_content_length_witness :
  Z.of_nat (String.length (gen_content 512 5)) = 5 * 512.
Proof.
  apply (gen_content_length 512 5).
  - lia.
  - intros i Hi.
    assert (Hcases : i = 0 \/ i = 1 \/ i = 2 \/ i = 3 \/ i = 4) by lia.
    destruct Hcases as [->|[->|[->|[->| ->]]]]; vm_compute; discriminate.
Defined.

(** ** The source of a datagram *)

(** X17. The loop never looks at where a datagram comes from: the same bytes
    from any two endpoints end the pass the same way, with the same locals
    and the same file system. The source only decides where the
    acknowledgment is sent. *)
Theorem source_is_never_checked sa file data src1 src2 l w :
  fst (iteration sa file (Datagram data src1) l w)
    = fst (iteration sa file (Datagram data src2) l w)
  /\ fs (snd (iteration sa file (Datagram data src1) l w))
     = fs (snd (iteration sa file (Datagram data src2) l w))
  /\ written (trace (snd (iteration sa file (Datagram data src1) l w)))
     = written (trace (snd (iteration sa file (Datagram data src2) l w))).
Proof.
  destruct (struct_unpack_HH (firstn 4 data)) as [[opcode block]|] eqn:Hunpack.
  - destruct (Z.eq_dec opcode 3) as [->|Hopcode].
    + destruct (Z.eq_dec block (block_num l)) as [->|Hblock].
      * rewrite !(iteration_accept sa file data _ l w Hunpack). cbv zeta.
        destruct (_ <? _)%nat; unfold with_events; cbn [fst snd fs trace];
          rewrite ?written_app; auto.
      * rewrite !(iteration_out_of_order sa file data _ l w block Hunpack Hblock).
        unfold with_events. cbn [fst snd fs trace]. rewrite !written_app. auto.
    + rewrite !(iteration_unexpected_opcode sa file data _ l w opcode block
                  Hunpack Hopcode).
      unfold with_events. cbn [fst snd fs trace]. rewrite !written_app. auto.
  - rewrite !(iteration_short sa file data _ l w Hunpack).
    unfold with_events. cbn [fst snd fs trace]. rewrite !written_app. auto.
Qed.
